(** * ROI calculator: formula engine, input store and portfolio aggregation

    A shallow embedding of

    - [ConcreteROICalculator.calculate_roi_with_inputs]
      (src/utils/roi_calculator.py),
    - [ROIStorage.save_roi_inputs], [load_roi_inputs], [delete_roi_inputs]
      (src/utils/database_storage.py),
    - the summary loop of [display_roi_analysis] (src/app.py),

    together with the properties the specification states about them.

    Numbers.  Python [int]s are [Z].  Python [float]s are modelled twice.
    In [Py] and [Calculator] they are exact rationals [Q]; the one
    non-finite float the code builds itself, the literal [float('inf')] of
    the payback period, has a constructor of its own in the result type.
    In [Ieee] they are rationals or one of the special values: a result of
    magnitude 2^1024 - 2^970 or more overflows to an infinity, an [int] of
    that magnitude raises [OverflowError] when it is converted, and NaN
    arises as it does in IEEE 754.  On records whose numbers have a
    magnitude of at most 10^150 the two calculators return the same result
    ([calculate_agrees]); beyond it they differ, and the statements that
    depend on the range carry the bound.  Rounding of finite results is
    outside both models. *)

From Stdlib Require Import ZArith QArith Qminmax Qabs String List Bool.
From Stdlib Require Import Lia Lqa.
From Stdlib Require Import Permutation Sorted.
From stdpp Require Import gmap strings.

Local Open Scope Z_scope.
Local Open Scope string_scope.

(** ** Python values and the operators the code applies to them *)

Module Py.

Inductive value : Type :=
| VNone
| VInt (z : Z)
| VFloat (q : Q)
| VStr (s : string).

Inductive exn : Type :=
| TypeError
| ValueError
| ZeroDivisionError
| InterfaceError.

Inductive except (A : Type) : Type :=
| Ok (a : A)
| Raise (e : exn).
Arguments Ok {A} a.
Arguments Raise {A} e.

Definition bind {A B : Type} (m : except A) (k : A -> except B) : except B :=
  match m with
  | Ok a => k a
  | Raise e => Raise e
  end.

Notation "x <- m ;; k" := (bind m (fun x => k))
  (at level 100, m at next level, right associativity).

(** [returns m P]: the computation [m] raises nothing and its result
    satisfies [P]. *)
Definition returns {A : Type} (m : except A) (P : A -> Prop) : Prop :=
  match m with
  | Ok a => P a
  | Raise _ => False
  end.

(** [bool(v)]: the truth value of an object. *)
Definition truthy (v : value) : bool :=
  match v with
  | VNone => false
  | VInt z => negb (z =? 0)%Z
  | VFloat q => negb (Qeq_bool q 0)
  | VStr s => negb (String.eqb s "")
  end.

(** [a or b]. *)
Definition py_or (a b : value) : value := if truthy a then a else b.

(** The rational a number stands for; [None] for a non-number. *)
Definition as_Q (v : value) : option Q :=
  match v with
  | VInt z => Some (inject_Z z)
  | VFloat q => Some q
  | _ => None
  end.

Fixpoint repeat_string (n : nat) (s : string) : string :=
  match n with
  | O => ""
  | S n' => s +:+ repeat_string n' s
  end.

(** [a * b]: product of numbers ([int] only when both are), repetition of a
    string by an [int]. *)
Definition py_mul (a b : value) : except value :=
  match a, b with
  | VInt x, VInt y => Ok (VInt (x * y))
  | VInt x, VFloat y => Ok (VFloat (inject_Z x * y))
  | VFloat x, VInt y => Ok (VFloat (x * inject_Z y))
  | VFloat x, VFloat y => Ok (VFloat (x * y))
  | VStr s, VInt n => Ok (VStr (repeat_string (Z.to_nat n) s))
  | VInt n, VStr s => Ok (VStr (repeat_string (Z.to_nat n) s))
  | _, _ => Raise TypeError
  end.

(** [a + b]. *)
Definition py_add (a b : value) : except value :=
  match a, b with
  | VInt x, VInt y => Ok (VInt (x + y))
  | VInt x, VFloat y => Ok (VFloat (inject_Z x + y))
  | VFloat x, VInt y => Ok (VFloat (x + inject_Z y))
  | VFloat x, VFloat y => Ok (VFloat (x + y))
  | VStr s, VStr t => Ok (VStr (s +:+ t))
  | _, _ => Raise TypeError
  end.

(** [a - b]. *)
Definition py_sub (a b : value) : except value :=
  match a, b with
  | VInt x, VInt y => Ok (VInt (x - y))
  | VInt x, VFloat y => Ok (VFloat (inject_Z x - y))
  | VFloat x, VInt y => Ok (VFloat (x - inject_Z y))
  | VFloat x, VFloat y => Ok (VFloat (x - y))
  | _, _ => Raise TypeError
  end.

(** [a / b]: true division, always a [float]. *)
Definition py_div (a b : value) : except value :=
  match as_Q a, as_Q b with
  | Some x, Some y =>
      if Qeq_bool y 0 then Raise ZeroDivisionError else Ok (VFloat (x / y))
  | _, _ => Raise TypeError
  end.

Definition Qlt_bool (x y : Q) : bool := negb (Qle_bool y x).

(** [a > b]. *)
Definition py_gt (a b : value) : except bool :=
  match a, b with
  | VStr s, VStr t => Ok (String.ltb t s)
  | _, _ =>
      match as_Q a, as_Q b with
      | Some x, Some y => Ok (Qlt_bool y x)
      | _, _ => Raise TypeError
      end
  end.

(** [max(a, b)]: the first argument unless the second is greater. *)
Definition py_max (a b : value) : except value :=
  g <- py_gt b a ;;
  Ok (if g then b else a).

(** [a == b] as used by [in]: numbers compare by value. *)
Definition py_eq (a b : value) : bool :=
  match a, b with
  | VNone, VNone => true
  | VStr s, VStr t => String.eqb s t
  | _, _ =>
      match as_Q a, as_Q b with
      | Some x, Some y => Qeq_bool x y
      | _, _ => false
      end
  end.

(** [v in l]. *)
Definition py_in (v : value) (l : list value) : bool :=
  existsb (py_eq v) l.

(** [d.get(k)] and [d.get(k, dflt)]. *)
Definition dict_get (d : gmap string value) (k : string) : value :=
  match d !! k with
  | Some v => v
  | None => VNone
  end.

Definition dict_get_default (d : gmap string value) (k : string)
    (dflt : value) : value :=
  match d !! k with
  | Some v => v
  | None => dflt
  end.

(** [float(v)] and [int(v)].  Reading a number out of a string is Python's
    own parser, taken here as the parameter [parse]; a string it rejects
    raises [ValueError]. *)
Definition py_float (parse : string -> option Q) (v : value) : except Q :=
  match v with
  | VNone => Raise TypeError
  | VInt z => Ok (inject_Z z)
  | VFloat q => Ok q
  | VStr s =>
      match parse s with
      | Some q => Ok q
      | None => Raise ValueError
      end
  end.

(** [int] of a float truncates toward zero. *)
Definition py_int (parse : string -> option Z) (v : value) : except Z :=
  match v with
  | VNone => Raise TypeError
  | VInt z => Ok z
  | VFloat q => Ok (Z.quot (Qnum q) (Z.pos (Qden q)))
  | VStr s =>
      match parse s with
      | Some z => Ok z
      | None => Raise ValueError
      end
  end.

End Py.

Import Py.

(** ** The formula engine (src/utils/roi_calculator.py) *)

Module Calculator.

(** [self.blended_hourly_rate = 100.0] *)
Definition blended_hourly_rate : value := VFloat 100.

(** The payback period is a value or the literal [float('inf')]. *)
Inductive payback : Type :=
| Months (v : value)
| Infinite.

(** The dictionary [calculate_roi_with_inputs] returns, one field per key. *)
Record ROIResult : Type := mkResult {
  labor_savings_monthly : value;
  cost_avoidance_monthly : value;
  revenue_monthly : value;
  monthly_benefit : value;
  annual_benefit : value;
  implementation_cost : value;
  payback_period_months : payback;
  annual_roi_percentage : value;
  confidence_score : value;
  risk_mitigation_score : value;
  customer_reach_score : value;
  strategic_value : value;
  time_to_value_hours : value;
  fte_hours_saved : value;
  costs_saved_annual : value;
  revenue_generated_annual : value
}.

Definition calculate_roi_with_inputs (inputs : gmap string value)
    : except ROIResult :=
  let fte_hours_saved := py_or (dict_get inputs "labor_impact_hours") (VInt 0) in
  let avg_hourly_rate :=
    py_or (dict_get inputs "labor_cost_hourly") blended_hourly_rate in
  let costs_saved_annual :=
    py_or (dict_get inputs "cost_avoidance_annual") (VInt 0) in
  let revenue_generated_annual :=
    py_or (dict_get inputs "revenue_impact_annual") (VInt 0) in
  let time_to_value_hours :=
    py_or (dict_get inputs "time_to_value_hours") (VInt 0) in
  labor <- py_mul fte_hours_saved avg_hourly_rate ;;
  costs <- py_div costs_saved_annual (VInt 12) ;;
  s <- py_add labor costs ;;
  revenue <- py_div revenue_generated_annual (VInt 12) ;;
  monthly_benefit <- py_add s revenue ;;
  implementation_cost <- py_mul time_to_value_hours avg_hourly_rate ;;
  has_benefit <- py_gt monthly_benefit (VInt 0) ;;
  payback_months <-
    (if has_benefit
     then m <- py_max monthly_benefit (VFloat (1 # 100)) ;;
          p <- py_div implementation_cost m ;;
          Ok (Months p)
     else Ok Infinite) ;;
  has_cost <- py_gt implementation_cost (VInt 0) ;;
  annual_roi <-
    (if has_cost
     then yearly <- py_mul (VInt 12) monthly_benefit ;;
          net <- py_sub yearly implementation_cost ;;
          m <- py_max implementation_cost (VFloat (1 # 100)) ;;
          r <- py_div net m ;;
          py_mul r (VInt 100)
     else Ok (VInt 0)) ;;
  let confidence := py_or (dict_get inputs "confidence_level") (VInt 0) in
  let risk_score := py_or (dict_get inputs "risk_mitigation_score") (VInt 0) in
  let customer_reach :=
    py_or (dict_get inputs "customer_reach_score") (VInt 0) in
  s2 <- py_add risk_score customer_reach ;;
  s3 <- py_add s2 confidence ;;
  strategic_value <- py_div s3 (VInt 3) ;;
  labor_savings <- py_mul fte_hours_saved avg_hourly_rate ;;
  cost_avoidance <- py_div costs_saved_annual (VInt 12) ;;
  revenue_m <- py_div revenue_generated_annual (VInt 12) ;;
  annual <- py_mul monthly_benefit (VInt 12) ;;
  Ok {| labor_savings_monthly := labor_savings;
        cost_avoidance_monthly := cost_avoidance;
        revenue_monthly := revenue_m;
        monthly_benefit := monthly_benefit;
        annual_benefit := annual;
        implementation_cost := implementation_cost;
        payback_period_months := payback_months;
        annual_roi_percentage := annual_roi;
        confidence_score := confidence;
        risk_mitigation_score := risk_score;
        customer_reach_score := customer_reach;
        strategic_value := strategic_value;
        time_to_value_hours := time_to_value_hours;
        fte_hours_saved := fte_hours_saved;
        costs_saved_annual := costs_saved_annual;
        revenue_generated_annual := revenue_generated_annual |}.

End Calculator.

Import Calculator.

(** ** The formula engine over floats that overflow
       (src/utils/roi_calculator.py) *)

Module Ieee.

(** A float is a finite number or one of the special values of IEEE 754.
    Finite floats are rationals and a finite result is kept as it is: what
    this module adds to [Py] is overflow to an infinity, the arithmetic of
    the infinities and NaN, and the [OverflowError] of an [int] too large
    for a float.  Rounding of finite results and the sign of zero are
    outside it. *)
Inductive float : Type :=
| Finite (q : Q)
| PosInf
| NegInf
| NaN.

(** [2^1024 - 2^970], half an ulp above the largest double: a number of this
    magnitude or more rounds to an infinity. *)
Definition overflow_threshold : Z := 2 ^ 1024 - 2 ^ 970.

Definition to_double (q : Q) : float :=
  if Qle_bool (inject_Z overflow_threshold) q then PosInf
  else if Qle_bool q (- inject_Z overflow_threshold) then NegInf
  else Finite q.

Definition signed_inf (positive : bool) : float :=
  if positive then PosInf else NegInf.

Definition fneg (a : float) : float :=
  match a with
  | Finite q => Finite (- q)
  | PosInf => NegInf
  | NegInf => PosInf
  | NaN => NaN
  end.

Definition fmul (a b : float) : float :=
  match a, b with
  | NaN, _ | _, NaN => NaN
  | Finite x, Finite y => to_double (x * y)
  | Finite x, PosInf | PosInf, Finite x =>
      if Qeq_bool x 0 then NaN else signed_inf (Qlt_bool 0 x)
  | Finite x, NegInf | NegInf, Finite x =>
      if Qeq_bool x 0 then NaN else signed_inf (Qlt_bool x 0)
  | PosInf, PosInf | NegInf, NegInf => PosInf
  | PosInf, NegInf | NegInf, PosInf => NegInf
  end.

Definition fadd (a b : float) : float :=
  match a, b with
  | NaN, _ | _, NaN => NaN
  | Finite x, Finite y => to_double (x + y)
  | PosInf, NegInf | NegInf, PosInf => NaN
  | PosInf, _ | _, PosInf => PosInf
  | NegInf, _ | _, NegInf => NegInf
  end.

Definition fsub (a b : float) : float := fadd a (fneg b).

Definition is_zero (a : float) : bool :=
  match a with
  | Finite q => Qeq_bool q 0
  | _ => false
  end.

(** The quotient by a float that is not zero. *)
Definition fdiv (a b : float) : float :=
  match a, b with
  | NaN, _ | _, NaN => NaN
  | Finite x, Finite y => to_double (x / y)
  | Finite _, _ => Finite 0
  | PosInf, Finite y => signed_inf (Qlt_bool 0 y)
  | NegInf, Finite y => signed_inf (Qlt_bool y 0)
  | _, _ => NaN
  end.

(** [a > b]: false as soon as one side is NaN. *)
Definition fgt (a b : float) : bool :=
  match a, b with
  | NaN, _ | _, NaN => false
  | Finite x, Finite y => Qlt_bool y x
  | _, PosInf => false
  | PosInf, _ => true
  | NegInf, _ => false
  | Finite _, NegInf => true
  end.

Inductive value : Type :=
| VNone
| VInt (z : Z)
| VFloat (f : float)
| VStr (s : string).

Inductive exn : Type :=
| TypeError
| ZeroDivisionError
| OverflowError.

Inductive except (A : Type) : Type :=
| Ok (a : A)
| Raise (e : exn).
Arguments Ok {A} a.
Arguments Raise {A} e.

Definition bind {A B : Type} (m : except A) (k : A -> except B) : except B :=
  match m with
  | Ok a => k a
  | Raise e => Raise e
  end.

Declare Scope ieee_scope.
Notation "x <- m ;; k" := (bind m (fun x => k))
  (at level 100, m at next level, right associativity) : ieee_scope.
Local Open Scope ieee_scope.

(** The float an [int] is converted to when it meets a float. *)
Definition to_float (z : Z) : except float :=
  if (overflow_threshold <=? Z.abs z)%Z then Raise OverflowError
  else Ok (Finite (inject_Z z)).

Definition truthy (v : value) : bool :=
  match v with
  | VNone => false
  | VInt z => negb (z =? 0)%Z
  | VFloat f => negb (is_zero f)
  | VStr s => negb (String.eqb s "")
  end.

Definition py_or (a b : value) : value := if truthy a then a else b.

Definition py_mul (a b : value) : except value :=
  match a, b with
  | VInt x, VInt y => Ok (VInt (x * y))
  | VInt x, VFloat y => f <- to_float x ;; Ok (VFloat (fmul f y))
  | VFloat x, VInt y => f <- to_float y ;; Ok (VFloat (fmul x f))
  | VFloat x, VFloat y => Ok (VFloat (fmul x y))
  | VStr s, VInt n | VInt n, VStr s =>
      Ok (VStr (repeat_string (Z.to_nat n) s))
  | _, _ => Raise TypeError
  end.

Definition py_add (a b : value) : except value :=
  match a, b with
  | VInt x, VInt y => Ok (VInt (x + y))
  | VInt x, VFloat y => f <- to_float x ;; Ok (VFloat (fadd f y))
  | VFloat x, VInt y => f <- to_float y ;; Ok (VFloat (fadd x f))
  | VFloat x, VFloat y => Ok (VFloat (fadd x y))
  | VStr s, VStr t => Ok (VStr (s +:+ t))
  | _, _ => Raise TypeError
  end.

Definition py_sub (a b : value) : except value :=
  match a, b with
  | VInt x, VInt y => Ok (VInt (x - y))
  | VInt x, VFloat y => f <- to_float x ;; Ok (VFloat (fsub f y))
  | VFloat x, VInt y => f <- to_float y ;; Ok (VFloat (fsub x f))
  | VFloat x, VFloat y => Ok (VFloat (fsub x y))
  | _, _ => Raise TypeError
  end.

Definition float_div (x y : float) : except value :=
  if is_zero y then Raise ZeroDivisionError else Ok (VFloat (fdiv x y)).

(** [a / b]: the quotient of two [int]s too large for a float raises
    [OverflowError]; the quotient of floats overflows to an infinity. *)
Definition py_div (a b : value) : except value :=
  match a, b with
  | VInt x, VInt y =>
      if (y =? 0)%Z then Raise ZeroDivisionError
      else
        match to_double (inject_Z x / inject_Z y) with
        | Finite q => Ok (VFloat (Finite q))
        | _ => Raise OverflowError
        end
  | VInt x, VFloat y => f <- to_float x ;; float_div f y
  | VFloat x, VInt y => f <- to_float y ;; float_div x f
  | VFloat x, VFloat y => float_div x y
  | _, _ => Raise TypeError
  end.

(** [a > b]: an [int] and a float are compared by value, without
    conversion. *)
Definition py_gt (a b : value) : except bool :=
  match a, b with
  | VInt x, VInt y => Ok (y <? x)%Z
  | VInt x, VFloat y => Ok (fgt (Finite (inject_Z x)) y)
  | VFloat x, VInt y => Ok (fgt x (Finite (inject_Z y)))
  | VFloat x, VFloat y => Ok (fgt x y)
  | VStr s, VStr t => Ok (String.ltb t s)
  | _, _ => Raise TypeError
  end.

Definition py_max (a b : value) : except value :=
  g <- py_gt b a ;;
  Ok (if g then b else a).

Definition dict_get (d : gmap string value) (k : string) : value :=
  match d !! k with
  | Some v => v
  | None => VNone
  end.

Definition blended_hourly_rate : value := VFloat (Finite 100).

Record ROIResult : Type := mkResult {
  labor_savings_monthly : value;
  cost_avoidance_monthly : value;
  revenue_monthly : value;
  monthly_benefit : value;
  annual_benefit : value;
  implementation_cost : value;
  payback_period_months : value;
  annual_roi_percentage : value;
  confidence_score : value;
  risk_mitigation_score : value;
  customer_reach_score : value;
  strategic_value : value;
  time_to_value_hours : value;
  fte_hours_saved : value;
  costs_saved_annual : value;
  revenue_generated_annual : value
}.

Definition calculate_roi_with_inputs (inputs : gmap string value)
    : except ROIResult :=
  let fte_hours_saved := py_or (dict_get inputs "labor_impact_hours") (VInt 0) in
  let avg_hourly_rate :=
    py_or (dict_get inputs "labor_cost_hourly") blended_hourly_rate in
  let costs_saved_annual :=
    py_or (dict_get inputs "cost_avoidance_annual") (VInt 0) in
  let revenue_generated_annual :=
    py_or (dict_get inputs "revenue_impact_annual") (VInt 0) in
  let time_to_value_hours :=
    py_or (dict_get inputs "time_to_value_hours") (VInt 0) in
  labor <- py_mul fte_hours_saved avg_hourly_rate ;;
  costs <- py_div costs_saved_annual (VInt 12) ;;
  s <- py_add labor costs ;;
  revenue <- py_div revenue_generated_annual (VInt 12) ;;
  monthly_benefit <- py_add s revenue ;;
  implementation_cost <- py_mul time_to_value_hours avg_hourly_rate ;;
  has_benefit <- py_gt monthly_benefit (VInt 0) ;;
  payback_months <-
    (if has_benefit
     then m <- py_max monthly_benefit (VFloat (Finite (1 # 100))) ;;
          p <- py_div implementation_cost m ;;
          Ok p
     else Ok (VFloat PosInf)) ;;
  has_cost <- py_gt implementation_cost (VInt 0) ;;
  annual_roi <-
    (if has_cost
     then yearly <- py_mul (VInt 12) monthly_benefit ;;
          net <- py_sub yearly implementation_cost ;;
          m <- py_max implementation_cost (VFloat (Finite (1 # 100))) ;;
          r <- py_div net m ;;
          py_mul r (VInt 100)
     else Ok (VInt 0)) ;;
  let confidence := py_or (dict_get inputs "confidence_level") (VInt 0) in
  let risk_score := py_or (dict_get inputs "risk_mitigation_score") (VInt 0) in
  let customer_reach :=
    py_or (dict_get inputs "customer_reach_score") (VInt 0) in
  s2 <- py_add risk_score customer_reach ;;
  s3 <- py_add s2 confidence ;;
  strategic_value <- py_div s3 (VInt 3) ;;
  labor_savings <- py_mul fte_hours_saved avg_hourly_rate ;;
  cost_avoidance <- py_div costs_saved_annual (VInt 12) ;;
  revenue_m <- py_div revenue_generated_annual (VInt 12) ;;
  annual <- py_mul monthly_benefit (VInt 12) ;;
  Ok {| labor_savings_monthly := labor_savings;
        cost_avoidance_monthly := cost_avoidance;
        revenue_monthly := revenue_m;
        monthly_benefit := monthly_benefit;
        annual_benefit := annual;
        implementation_cost := implementation_cost;
        payback_period_months := payback_months;
        annual_roi_percentage := annual_roi;
        confidence_score := confidence;
        risk_mitigation_score := risk_score;
        customer_reach_score := customer_reach;
        strategic_value := strategic_value;
        time_to_value_hours := time_to_value_hours;
        fte_hours_saved := fte_hours_saved;
        costs_saved_annual := costs_saved_annual;
        revenue_generated_annual := revenue_generated_annual |}.

(** A value of [Py] as a value over these floats, and a result of
    [Calculator] as a result of this module. *)
Definition lift (v : Py.value) : value :=
  match v with
  | Py.VNone => VNone
  | Py.VInt z => VInt z
  | Py.VFloat q => VFloat (Finite q)
  | Py.VStr s => VStr s
  end.

Definition lift_payback (p : Calculator.payback) : value :=
  match p with
  | Calculator.Months v => lift v
  | Calculator.Infinite => VFloat PosInf
  end.

Definition lift_result (r : Calculator.ROIResult) : ROIResult :=
  {| labor_savings_monthly := lift (Calculator.labor_savings_monthly r);
     cost_avoidance_monthly := lift (Calculator.cost_avoidance_monthly r);
     revenue_monthly := lift (Calculator.revenue_monthly r);
     monthly_benefit := lift (Calculator.monthly_benefit r);
     annual_benefit := lift (Calculator.annual_benefit r);
     implementation_cost := lift (Calculator.implementation_cost r);
     payback_period_months :=
       lift_payback (Calculator.payback_period_months r);
     annual_roi_percentage := lift (Calculator.annual_roi_percentage r);
     confidence_score := lift (Calculator.confidence_score r);
     risk_mitigation_score := lift (Calculator.risk_mitigation_score r);
     customer_reach_score := lift (Calculator.customer_reach_score r);
     strategic_value := lift (Calculator.strategic_value r);
     time_to_value_hours := lift (Calculator.time_to_value_hours r);
     fte_hours_saved := lift (Calculator.fte_hours_saved r);
     costs_saved_annual := lift (Calculator.costs_saved_annual r);
     revenue_generated_annual :=
       lift (Calculator.revenue_generated_annual r) |}.

End Ieee.

(** ** The input store (src/utils/database_storage.py) *)

Module Storage.

(** Modelled from the spec: the declaration of the table [roi_inputs], whose
    CREATE TABLE statement is not among the sources.  Section 3 of the
    specification lists its twelve columns (the amounts and rates real, the
    scores integer, [updated_at] a timestamp) and section 6 the uniqueness
    constraint on [use_case_title] that [ON CONFLICT] relies on. *)
Record Row : Type := mkRow {
  use_case_title : string;
  business_unit : string;
  labor_impact_hours : Q;
  labor_cost_hourly : Q;
  cost_avoidance_annual : Q;
  revenue_impact_annual : Q;
  risk_mitigation_score : Z;
  customer_reach_score : Z;
  time_to_value_hours : Q;
  implementation_cost_hourly : Q;
  confidence_level : Z;
  updated_at : Z
}.

Inductive Connection : Type :=
| Open
| Closed.

(** [self.connection] and the table seen through it. *)
Record ROIStorage : Type := mkStorage {
  connection : option Connection;
  roi_inputs : list Row
}.

(** [connection.cursor()] raises on a closed connection. *)
Definition cursor (c : Connection) : except unit :=
  match c with
  | Open => Ok tt
  | Closed => Raise InterfaceError
  end.

Definition has_title (title : string) (r : Row) : bool :=
  String.eqb (use_case_title r) title.

(** [INSERT ... ON CONFLICT (use_case_title) DO UPDATE SET ...]: every
    column of the conflicting row is overwritten by the new values. *)
Definition upsert (new : Row) (rows : list Row) : list Row :=
  if existsb (has_title (use_case_title new)) rows
  then map (fun r => if has_title (use_case_title new) r then new else r) rows
  else rows ++ [new].

(** [SELECT * FROM roi_inputs WHERE use_case_title = %s] and [fetchone]. *)
Definition select_one (title : string) (rows : list Row) : option Row :=
  find (has_title title) rows.

(** [DELETE FROM roi_inputs WHERE use_case_title = %s]: the rows left and
    [cursor.rowcount]. *)
Definition delete_where (title : string) (rows : list Row)
    : list Row * nat :=
  (List.filter (fun r => negb (has_title title r)) rows,
   length (List.filter (has_title title) rows)).

(** The dictionary [load_roi_inputs] builds from a row. *)
Definition row_dict (result : Row) : gmap string value :=
  <["labor_impact_hours" := VFloat (labor_impact_hours result)]>
  (<["labor_cost_hourly" := VFloat (labor_cost_hourly result)]>
  (<["cost_avoidance_annual" := VFloat (cost_avoidance_annual result)]>
  (<["revenue_impact_annual" := VFloat (revenue_impact_annual result)]>
  (<["risk_mitigation_score" := VInt (risk_mitigation_score result)]>
  (<["customer_reach_score" := VInt (customer_reach_score result)]>
  (<["time_to_value_hours" := VFloat (time_to_value_hours result)]>
  (<["implementation_cost_hourly" :=
       VFloat (implementation_cost_hourly result)]>
  (<["confidence_level" := VInt (confidence_level result)]> ∅)))))))).

Section Operations.

(** Python's parsers behind [float(str)] and [int(str)]. *)
Variable str_to_float : string -> option Q.
Variable str_to_int : string -> option Z.

Let float := py_float str_to_float.
Let int := py_int str_to_int.

(** The tuple of query parameters of [save_roi_inputs], with
    [CURRENT_TIMESTAMP] read as [now]. *)
Definition save_parameters (now : Z) (use_case_title : string)
    (inputs : gmap string value) (business_unit : option string)
    : except Row :=
  let unit_name :=
    match business_unit with
    | Some s => if String.eqb s "" then "Unknown" else s
    | None => "Unknown"
    end in
  hours <- float (dict_get_default inputs "labor_impact_hours" (VInt 0)) ;;
  rate <- float (dict_get_default inputs "labor_cost_hourly" (VInt 100)) ;;
  avoided <- float (dict_get_default inputs "cost_avoidance_annual" (VInt 0)) ;;
  revenue <- float (dict_get_default inputs "revenue_impact_annual" (VInt 0)) ;;
  risk <- int (dict_get_default inputs "risk_mitigation_score" (VInt 3)) ;;
  reach <- int (dict_get_default inputs "customer_reach_score" (VInt 3)) ;;
  effort <- float (dict_get_default inputs "time_to_value_hours" (VInt 0)) ;;
  impl_rate <-
    float (dict_get_default inputs "implementation_cost_hourly" (VInt 100)) ;;
  conf <- int (dict_get_default inputs "confidence_level" (VInt 3)) ;;
  Ok {| use_case_title := use_case_title;
        business_unit := unit_name;
        labor_impact_hours := hours;
        labor_cost_hourly := rate;
        cost_avoidance_annual := avoided;
        revenue_impact_annual := revenue;
        risk_mitigation_score := risk;
        customer_reach_score := reach;
        time_to_value_hours := effort;
        implementation_cost_hourly := impl_rate;
        confidence_level := conf;
        updated_at := now |}.

(** The result and the store afterwards; any exception gives [False] and
    leaves the table as it was. *)
Definition save_roi_inputs (self : ROIStorage) (now : Z)
    (use_case_title : string) (inputs : gmap string value)
    (business_unit : option string) : bool * ROIStorage :=
  match connection self with
  | None => (false, self)
  | Some c =>
      match (cur <- cursor c ;;
             row <- save_parameters now use_case_title inputs business_unit ;;
             Ok (upsert row (roi_inputs self))) with
      | Ok rows =>
          (true, {| connection := connection self; roi_inputs := rows |})
      | Raise _ => (false, self)
      end
  end.

Definition load_roi_inputs (self : ROIStorage) (use_case_title : string)
    : option (gmap string value) :=
  match connection self with
  | None => None
  | Some c =>
      match cursor c with
      | Ok _ =>
          match select_one use_case_title (roi_inputs self) with
          | Some result => Some (row_dict result)
          | None => None
          end
      | Raise _ => None
      end
  end.

Definition delete_roi_inputs (self : ROIStorage) (use_case_title : string)
    : bool * ROIStorage :=
  match connection self with
  | None => (false, self)
  | Some c =>
      match cursor c with
      | Ok _ =>
          let (rows, rowcount) :=
            delete_where use_case_title (roi_inputs self) in
          ((0 <? rowcount)%nat,
           {| connection := connection self; roi_inputs := rows |})
      | Raise _ => (false, self)
      end
  end.

Definition close (self : ROIStorage) : ROIStorage :=
  match connection self with
  | Some _ => {| connection := Some Closed; roi_inputs := roi_inputs self |}
  | None => self
  end.

(** [ROIStorage()] on a database that accepts the connection. *)
Definition connect (table : list Row) : ROIStorage :=
  {| connection := Some Open; roi_inputs := table |}.

(** One operation of a session on the store, or a new session on the same
    table. *)
Inductive step : ROIStorage -> ROIStorage -> Prop :=
| step_save self now title inputs unit_name :
    step self (snd (save_roi_inputs self now title inputs unit_name))
| step_delete self title :
    step self (snd (delete_roi_inputs self title))
| step_close self :
    step self (close self)
| step_connect self :
    step self (connect (roi_inputs self)).

(** The stores reachable from the first connection to the empty table. *)
Inductive reachable : ROIStorage -> Prop :=
| reachable_connect : reachable (connect [])
| reachable_step self self' :
    reachable self -> step self self' -> reachable self'.

End Operations.

End Storage.

(** ** The portfolio summary loop (src/app.py, [display_roi_analysis]) *)

Module Aggregator.

Definition key_fields : list string :=
  [ "labor_impact_hours"; "cost_avoidance_annual"; "revenue_impact_annual" ].

(** [any(inputs.get(field) not in [None, 0, ''] for field in key_fields)] *)
Definition has_data (inputs : gmap string value) : bool :=
  existsb
    (fun field => negb (py_in (dict_get inputs field) [VNone; VInt 0; VStr ""]))
    key_fields.

(** A row of [roi_summary_data], before its cells are formatted as text:
    [None] in the cost cell is "Not Set", [None] in the ROI cell is "N/A". *)
Record SummaryRow : Type := mkSummaryRow {
  use_case : string;
  monthly_benefit_cell : value;
  annual_benefit_cell : value;
  implementation_cost_cell : option value;
  net_annual_benefit_cell : value;
  roi_cell : option value;
  strategic_value_cell : value
}.

(** The three variables the loop updates. *)
Record Summary : Type := mkSummary {
  total_annual_benefits : value;
  total_implementation_costs : value;
  roi_summary_data : list SummaryRow
}.

Definition empty_summary : Summary :=
  {| total_annual_benefits := VInt 0;
     total_implementation_costs := VInt 0;
     roi_summary_data := [] |}.

(** [v != float('inf')]: every float of [Py] is finite. *)
Definition differs_from_infinity (v : value) : bool := true.

(** The body of [for case_title, inputs in all_roi_data.items()].  The
    variable [has_implementation_data] of the source is assigned and never
    read; [if results:] holds for the non-empty dictionary the calculator
    returns. *)
Definition summarize_case (case_title : string) (inputs : gmap string value)
    (acc : Summary) : except Summary :=
  if has_data inputs then
    results <- calculate_roi_with_inputs inputs ;;
    let annual_benefit := annual_benefit results in
    let impl_cost := implementation_cost results in
    net_benefit <- py_sub annual_benefit impl_cost ;;
    let roi_percentage := annual_roi_percentage results in
    benefits <- py_add (total_annual_benefits acc) annual_benefit ;;
    costs <- py_add (total_implementation_costs acc) impl_cost ;;
    has_cost <- py_gt impl_cost (VInt 0) ;;
    positive <- py_gt impl_cost (VInt 0) ;;
    let has_roi := positive && differs_from_infinity roi_percentage in
    Ok {| total_annual_benefits := benefits;
          total_implementation_costs := costs;
          roi_summary_data :=
            roi_summary_data acc ++
            [ {| use_case := case_title;
                 monthly_benefit_cell := monthly_benefit results;
                 annual_benefit_cell := annual_benefit;
                 implementation_cost_cell :=
                   if has_cost then Some impl_cost else None;
                 net_annual_benefit_cell := net_benefit;
                 roi_cell := if has_roi then Some roi_percentage else None;
                 strategic_value_cell := strategic_value results |} ] |}
  else Ok acc.

Fixpoint summarize (all_roi_data : list (string * gmap string value))
    (acc : Summary) : except Summary :=
  match all_roi_data with
  | [] => Ok acc
  | (case_title, inputs) :: rest =>
      acc' <- summarize_case case_title inputs acc ;;
      summarize rest acc'
  end.

End Aggregator.

(** ** Input records and their fields *)

(** [is_num v q]: the value [v] is a number, equal to [q]. *)
Definition is_num (v : value) (q : Q) : Prop :=
  match as_Q v with
  | Some q' => (q' == q)%Q
  | None => False
  end.

(** The value is an [int] or a [float]. *)
Definition is_number (v : value) : bool :=
  match v with
  | VInt _ | VFloat _ => true
  | _ => false
  end.

(** The field [k] is absent, [None] or a number. *)
Definition numeric_or_missing (inputs : gmap string value) (k : string)
    : bool :=
  match inputs !! k with
  | None | Some VNone => true
  | Some v => is_number v
  end.

(** The field [k] is absent or [None]. *)
Definition missing (inputs : gmap string value) (k : string) : bool :=
  match inputs !! k with
  | None | Some VNone => true
  | Some _ => false
  end.

(** The field [k] is absent, [None] or a non-negative number. *)
Definition nonneg_or_missing (inputs : gmap string value) (k : string)
    : bool :=
  match inputs !! k with
  | None | Some VNone => true
  | Some v =>
      match as_Q v with
      | Some q => Qle_bool 0 q
      | None => false
      end
  end.

(** The field [k] is absent, [None] or a number equal to 0. *)
Definition zero_or_null (inputs : gmap string value) (k : string) : bool :=
  match inputs !! k with
  | None | Some VNone => true
  | Some v =>
      match as_Q v with
      | Some q => Qeq_bool q 0
      | None => false
      end
  end.


(** The eight fields [calculate_roi_with_inputs] reads. *)
Definition calculator_fields : list string :=
  [ "labor_impact_hours"; "labor_cost_hourly"; "cost_avoidance_annual";
    "revenue_impact_annual"; "time_to_value_hours"; "confidence_level";
    "risk_mitigation_score"; "customer_reach_score" ].

(** Every field the calculator reads is absent, [None] or a number. *)
Definition numeric_inputs (inputs : gmap string value) : bool :=
  forallb (numeric_or_missing inputs) calculator_fields.

(** The five amounts and rates the calculator reads, and the three scores. *)
Definition amount_fields : list string :=
  [ "labor_impact_hours"; "labor_cost_hourly"; "cost_avoidance_annual";
    "revenue_impact_annual"; "time_to_value_hours" ].

Definition score_fields : list string :=
  [ "confidence_level"; "risk_mitigation_score"; "customer_reach_score" ].

(** The six columns [save_roi_inputs] converts with [float]. *)
Definition float_fields : list string :=
  [ "labor_impact_hours"; "labor_cost_hourly"; "cost_avoidance_annual";
    "revenue_impact_annual"; "time_to_value_hours";
    "implementation_cost_hourly" ].

(** The number [inputs.get(k) or d] stands for on a numeric field. *)
Definition field_Q (inputs : gmap string value) (k : string) (d : Q) : Q :=
  match as_Q (dict_get inputs k) with
  | Some q => if Qeq_bool q 0 then d else q
  | None => d
  end.

(** The name [save_roi_inputs] stores for [business_unit or 'Unknown']. *)
Definition stored_unit (business_unit : option string) : string :=
  match business_unit with
  | Some s => if String.eqb s "" then "Unknown" else s
  | None => "Unknown"
  end.

(** A parser that reads no string as a number. *)
Definition no_number {A : Type} (s : string) : option A := None.

(** ** Records within the range of floats *)

(** The largest magnitude of an input for which no step of the calculator
    overflows: 10^150. *)
Definition magnitude_bound : Q := inject_Z (10 ^ 150).

(** The field [k], when it is a number, has a magnitude of at most
    [magnitude_bound]. *)
Definition within_bound (inputs : gmap string value) (k : string) : bool :=
  match inputs !! k with
  | Some v =>
      match as_Q v with
      | Some q => Qle_bool (Qabs q) magnitude_bound
      | None => true
      end
  | None => true
  end.

(** Every field the calculator reads is within the bound. *)
Definition bounded_inputs (inputs : gmap string value) : bool :=
  forallb (within_bound inputs) calculator_fields.

(** [v] is a number of magnitude at most [M]; [v] is a number of magnitude
    at least [L]. *)
Definition magnitude (v : value) (M : Q) : Prop :=
  match as_Q v with
  | Some q => (Qabs q <= M)%Q
  | None => False
  end.

Definition at_least (v : value) (L : Q) : Prop :=
  match as_Q v with
  | Some q => (L <= Qabs q)%Q
  | None => False
  end.

(** The computation [m] over exact numbers returns a result that satisfies
    [P], and the computation [m'] over floats that overflow returns the same
    result. *)
Definition agree {A B : Type} (f : A -> B) (m : except A)
    (m' : Ieee.except B) (P : A -> Prop) : Prop :=
  match m with
  | Ok a => m' = Ieee.Ok (f a) /\ P a
  | Raise _ => False
  end.

(** On the record [inputs] the calculator over floats that overflow returns
    the result [r] of the calculator over exact numbers. *)
Definition no_overflow (inputs : gmap string value) (r : ROIResult) : Prop :=
  Ieee.calculate_roi_with_inputs (Ieee.lift <$> inputs)
  = Ieee.Ok (Ieee.lift_result r).

(** The threshold of overflow, as a rational. *)
Definition double_range : Q := inject_Z Ieee.overflow_threshold.

(** The seven fields the calculator reads with [or 0]. *)
Definition zero_defaulted : list string :=
  [ "labor_impact_hours"; "cost_avoidance_annual"; "revenue_impact_annual";
    "time_to_value_hours"; "confidence_level"; "risk_mitigation_score";
    "customer_reach_score" ].

(** A number [float] converts without rounding: a float, or an [int] of
    magnitude at most 2^53. *)
Definition exact_as_float (v : value) : bool :=
  match v with
  | VFloat _ => true
  | VInt z => (Z.abs z <=? 2 ^ 53)%Z
  | _ => false
  end.

(** The field [k] is absent, [None] or a float, as a [number_input] with a
    float [min_value] returns it. *)
Definition float_or_missing (inputs : gmap string value) (k : string)
    : bool :=
  match inputs !! k with
  | None | Some VNone | Some (VFloat _) => true
  | Some _ => false
  end.

(** A record as the input form builds it: the amounts floats, the scores
    numbers, and every number within the bound. *)
Definition entered_record (inputs : gmap string value) : bool :=
  forallb (float_or_missing inputs) amount_fields
  && forallb (numeric_or_missing inputs) score_fields
  && bounded_inputs inputs.

(** ** Example records and stores *)

(** The worked example of the specification (section 8, item 1). *)
Definition spec_example : gmap string value :=
  <["labor_impact_hours" := VInt 10]>
  (<["labor_cost_hourly" := VInt 50]>
  (<["cost_avoidance_annual" := VInt 1200]>
  (<["revenue_impact_annual" := VInt 2400]>
  (<["time_to_value_hours" := VInt 20]>
  (<["risk_mitigation_score" := VInt 4]>
  (<["customer_reach_score" := VInt 5]>
  (<["confidence_level" := VInt 3]> ∅))))))).

(** Benefit and cost both 1/256 = 0.00390625, below one cent. *)
Definition sub_cent_case : gmap string value :=
  <["labor_impact_hours" := VFloat (1 # 256)]>
  (<["labor_cost_hourly" := VFloat 1]>
  (<["time_to_value_hours" := VFloat (1 # 256)]> ∅)).

(** A text where hours are expected. *)
Definition text_in_hours : gmap string value :=
  <["labor_impact_hours" := VStr "abc"]> ∅.

(** One hour saved and nothing else. *)
Definition hours_only : gmap string value :=
  <["labor_impact_hours" := VInt 1]> ∅.

(** One hour saved and an effort of 10^308 hours. *)
Definition huge_effort : gmap string value :=
  <["labor_impact_hours" := VInt 1]>
  (<["time_to_value_hours" := VFloat (inject_Z (10 ^ 308))]> ∅).

(** A benefit of one cent a month and an effort of 10^306 hours. *)
Definition costly_effort : gmap string value :=
  <["labor_impact_hours" := VFloat (1 # 10000)]>
  (<["time_to_value_hours" := VFloat (inject_Z (10 ^ 306))]> ∅).

(** 10^400 hours saved, as an [int]. *)
Definition huge_hours : gmap string value :=
  <["labor_impact_hours" := VInt (10 ^ 400)]> ∅.

(** The worked example as the input form holds it, the amounts floats. *)
Definition entered_example : gmap string value :=
  <["labor_impact_hours" := VFloat 10]>
  (<["labor_cost_hourly" := VFloat 50]>
  (<["cost_avoidance_annual" := VFloat 1200]>
  (<["revenue_impact_annual" := VFloat 2400]>
  (<["time_to_value_hours" := VFloat 20]>
  (<["risk_mitigation_score" := VInt 4]>
  (<["customer_reach_score" := VInt 5]>
  (<["confidence_level" := VInt 3]> ∅))))))).


(** An implementation effort and nothing else. *)
Definition effort_only : gmap string value :=
  <["time_to_value_hours" := VInt 40]> ∅.

(** Hours present with the value [None]. *)
Definition blank_hours : gmap string value :=
  <["labor_impact_hours" := VNone]> ∅.

(** A risk score of 3.7. *)
Definition fractional_score : gmap string value :=
  <["risk_mitigation_score" := VFloat (37 # 10)]> ∅.

Section StoreDefinitions.

Import Storage.

(** The titles held in a table, row by row. *)
Definition titles (rows : list Row) : list string :=
  map use_case_title rows.

(** The row stored when nothing but the title is given. *)
Definition default_row (now : Z) (title : string) : Row :=
  {| use_case_title := title;
     business_unit := "Unknown";
     labor_impact_hours := 0;
     labor_cost_hourly := 100;
     cost_avoidance_annual := 0;
     revenue_impact_annual := 0;
     risk_mitigation_score := 3;
     customer_reach_score := 3;
     time_to_value_hours := 0;
     implementation_cost_hourly := 100;
     confidence_level := 3;
     updated_at := now |}.

End StoreDefinitions.

(** The store after one save on the empty table. *)
Definition one_saved : Storage.ROIStorage :=
  snd (Storage.save_roi_inputs no_number no_number (Storage.connect [])
         5 "A" spec_example (Some "Sales")).

(** The store after a second save, of another title, two time units
    later. *)
Definition two_saved : Storage.ROIStorage :=
  snd (Storage.save_roi_inputs no_number no_number one_saved 7 "B"
         hours_only None).

(** ** Dictionaries that keep insertion order *)

Module Dict.

(** A Python [dict] with string keys, entries in insertion order. *)
Definition t (V : Type) : Type := list (string * V).

Definition has_key {V : Type} (k : string) (kv : string * V) : bool :=
  String.eqb (fst kv) k.

(** [d.get(k)] *)
Definition get {V : Type} (k : string) (d : t V) : option V :=
  match find (has_key k) d with
  | Some kv => Some (snd kv)
  | None => None
  end.

(** [d[k] = v]: an existing key keeps its place, a new key goes last. *)
Fixpoint set {V : Type} (k : string) (v : V) (d : t V) : t V :=
  match d with
  | [] => [(k, v)]
  | kv :: rest =>
      if has_key k kv then (fst kv, v) :: rest else kv :: set k v rest
  end.

(** [d.update(other)] *)
Definition update {V : Type} (d other : t V) : t V :=
  fold_left (fun acc kv => set (fst kv) (snd kv) acc) other d.

Definition keys {V : Type} (d : t V) : list string := map fst d.

End Dict.

(** ** Bulk reads of the store (src/utils/database_storage.py) *)

Module StorageQueries.

Import Storage.

(** [ORDER BY updated_at DESC], by insertion: rows of equal timestamp keep
    the order of the table (SQL leaves their order open). *)
Fixpoint insert_by_updated (r : Row) (rows : list Row) : list Row :=
  match rows with
  | [] => [r]
  | r' :: rest =>
      if (updated_at r' <=? updated_at r)%Z
      then r :: rows
      else r' :: insert_by_updated r rest
  end.

Definition order_by_updated_desc (rows : list Row) : list Row :=
  fold_right insert_by_updated [] rows.

(** The order of the result: [a] before [b] when [a] is not older. *)
Definition newer_first (a b : Row) : Prop :=
  (updated_at b <= updated_at a)%Z.

(** The loop of [load_all_roi_inputs] over the fetched rows. *)
Definition collect (results : list Row) : Dict.t (gmap string value) :=
  fold_left
    (fun roi_inputs result =>
       Dict.set (use_case_title result) (row_dict result) roi_inputs)
    results [].

Definition load_all_roi_inputs (self : ROIStorage)
    : Dict.t (gmap string value) :=
  match connection self with
  | None => []
  | Some c =>
      match cursor c with
      | Ok _ => collect (order_by_updated_desc (roi_inputs self))
      | Raise _ => []
      end
  end.

Definition get_saved_use_cases (self : ROIStorage) : list string :=
  match connection self with
  | None => []
  | Some c =>
      match cursor c with
      | Ok _ => map use_case_title (order_by_updated_desc (roi_inputs self))
      | Raise _ => []
      end
  end.

End StorageQueries.

(** ** The portfolio of [display_roi_analysis] (src/app.py) *)

Module Portfolio.

(** [consolidated_roi_data.copy()] updated with the session's records;
    [roi_storage] is [None] when the connection failed. *)
Definition all_roi_data (roi_storage : option Storage.ROIStorage)
    (session_roi_data : Dict.t (gmap string value))
    : Dict.t (gmap string value) :=
  let consolidated_roi_data :=
    match roi_storage with
    | Some storage => StorageQueries.load_all_roi_inputs storage
    | None => []
    end in
  Dict.update consolidated_roi_data session_roi_data.

(** [total_net_benefit] and [overall_roi], the overall metrics. *)
Definition overall_metrics (s : Aggregator.Summary) : except (value * value) :=
  total_net_benefit <-
    py_sub (Aggregator.total_annual_benefits s)
           (Aggregator.total_implementation_costs s) ;;
  has_cost <- py_gt (Aggregator.total_implementation_costs s) (VInt 0) ;;
  overall_roi <-
    (if has_cost
     then share <- py_div total_net_benefit
                     (Aggregator.total_implementation_costs s) ;;
          py_mul share (VInt 100)
     else Ok (VInt 0)) ;;
  Ok (total_net_benefit, overall_roi).

End Portfolio.

(** ** Use-case records and the input extraction
       (src/utils/roi_calculator.py) *)

Module Extraction.

Unset Elimination Schemes.

(** A value of a use-case record: a scalar, a list or a dictionary. *)
Inductive obj : Type :=
| Scalar (v : value)
| Seq (items : list obj)
| Mapping (entries : list (string * obj)).

Set Elimination Schemes.

(** [d.get(k, dflt)] on a record. *)
Definition get_default (d : gmap string obj) (k : string) (dflt : obj)
    : obj :=
  match d !! k with
  | Some o => o
  | None => dflt
  end.

(** [self.blended_hourly_rate] *)
Definition blended_hourly_rate : obj := Scalar (VFloat 100).

Definition extract_roi_inputs_from_api (use_case_data : gmap string obj)
    : gmap string obj :=
  <["title" := get_default use_case_data "title" (Scalar (VStr ""))]>
  (<["business_unit" :=
       get_default use_case_data "business_unit" (Scalar (VStr ""))]>
  (<["labor_impact_hours" := Scalar VNone]>
  (<["labor_cost_hourly" := blended_hourly_rate]>
  (<["cost_avoidance_annual" := Scalar VNone]>
  (<["revenue_impact_annual" := Scalar VNone]>
  (<["risk_mitigation_score" := Scalar VNone]>
  (<["customer_reach_score" := Scalar VNone]>
  (<["time_to_value_hours" := Scalar VNone]>
  (<["implementation_cost_hourly" := blended_hourly_rate]>
  (<["confidence_level" := Scalar VNone]>
  (<["api_systems_involved" :=
       get_default use_case_data "systems_involved" (Seq [])]>
  (<["api_roi_estimate" :=
       get_default use_case_data "roi_estimate" (Mapping [])]>
  (<["api_task_frequency" :=
       get_default use_case_data "task_frequency" (Scalar (VStr ""))]>
  (<["api_task_volume" :=
       get_default use_case_data "task_volume" (Scalar (VStr ""))]>
  (<["api_importance" :=
       get_default use_case_data "importance" (Scalar (VStr ""))]>
  (<["api_description" :=
       get_default use_case_data "description" (Scalar (VStr ""))]>
  (<["api_current_process" :=
       get_default use_case_data "current_process" (Scalar (VStr ""))]>
  (<["api_teams_involved" :=
       get_default use_case_data "teams_involved" (Seq [])]>
   ∅)))))))))))))))))).

(** The record as the calculator, the store and the summary read it: its
    scalar entries.  The nine numeric and score fields of an extracted record
    are scalars; the entries left out (lists and dictionaries under the
    [api_] keys, [title], [business_unit]) are under keys none of them
    reads. *)
Definition scalars (record : gmap string obj) : gmap string value :=
  omap (fun o => match o with Scalar v => Some v | _ => None end) record.

End Extraction.

(** ** The estimate helpers (src/utils/roi_calculator.py) *)

Module Estimates.

Import Extraction.

(** [needle in haystack] on strings. *)
Fixpoint contains (needle haystack : string) : bool :=
  String.prefix needle haystack
  || match haystack with
     | EmptyString => false
     | String _ rest => contains needle rest
     end.


(** [d.get(k, dflt)] on a dictionary value. *)
Definition entry (entries : list (string * obj)) (k : string) (dflt : obj)
    : obj :=
  match find (fun kv => String.eqb (fst kv) k) entries with
  | Some kv => snd kv
  | None => dflt
  end.

(** What reading an attribute of the calculator gives: a value, or
    [AttributeError] for an attribute the class never sets. *)
Inductive attempt (A : Type) : Type :=
| Returned (a : A)
| AttributeError.
Arguments Returned {A} a.
Arguments AttributeError {A}.

(** [self.cost_per_system] and [self.revenue_per_customer_system]:
    [__init__] sets [blended_hourly_rate] and [roi_structure] only. *)
Definition cost_per_system : attempt Q := AttributeError.
Definition revenue_per_customer_system : attempt Q := AttributeError.

(** [attribute * factor] and the attribute as it is. *)
Definition scaled (a : attempt Q) (factor : Q) : attempt value :=
  match a with
  | Returned q => Returned (VFloat (q * factor))
  | AttributeError => AttributeError
  end.

Definition unscaled (a : attempt Q) : attempt value :=
  match a with
  | Returned q => Returned (VFloat q)
  | AttributeError => AttributeError
  end.

Section Helpers.

(** [str(o).lower()], the length of [str(o)], and the number read by
    [int(re.findall(r'\d+', s)[0])] when [s] holds a digit: Python's own
    text functions, taken as parameters. *)
Variable lowered : obj -> string.
Variable text_length : obj -> nat.
Variable first_number : string -> option N.

Definition mentions (words : list string) (o : obj) : bool :=
  existsb (fun word => contains word (lowered o)) words.


Definition related_benefit (words : list string) (roi_data : obj) : bool :=
  match roi_data with
  | Mapping entries =>
      match entry entries "benefits" (Seq []) with
      | Seq benefits => existsb (mentions words) benefits
      | _ => false
      end
  | _ => false
  end.

Definition _estimate_cost_avoidance (systems roi_data : obj)
    : attempt value :=
  if related_benefit ["cost"; "saving"; "efficiency"] roi_data
  then scaled cost_per_system 2
  else
    let system_count :=
      match systems with
      | Seq items => length items
      | _ => O
      end in
    if (3 <=? system_count)%nat then scaled cost_per_system 2
    else if (2 <=? system_count)%nat then unscaled cost_per_system
    else scaled cost_per_system (4 # 10).

Definition _estimate_revenue_generated (roi_data systems : obj)
    : attempt value :=
  if related_benefit ["revenue"; "sales"; "customer"] roi_data
  then scaled revenue_per_customer_system 2
  else
    match systems with
    | Seq _ =>
        if mentions ["salesforce"; "marketo"; "hubspot"; "zendesk"] systems
        then unscaled revenue_per_customer_system
        else Returned (VInt 0)
    | _ => Returned (VInt 0)
    end.

Definition _estimate_time_to_value (complexity_factors systems : obj) : Z :=
  let base_hours := 40%Z in
  let complexity_hours :=
    match complexity_factors with
    | Seq items => (Z.of_nat (length items) * 20)%Z
    | _ => 20%Z
    end in
  let system_hours :=
    match systems with
    | Seq items => (Z.of_nat (length items) * 30)%Z
    | _ => 30%Z
    end in
  let total_hours := (base_hours + complexity_hours + system_hours)%Z in
  Z.min total_hours 1000.

Definition _calculate_risk_score (use_case_data : gmap string obj) : Q :=
  let data_sensitivity :=
    lowered (get_default use_case_data "data_sensitivity"
               (Scalar (VStr ""))) in
  let challenges := get_default use_case_data "challenges" (Seq []) in
  if contains "high" data_sensitivity || contains "sensitive" data_sensitivity
  then 5%Q
  else if match challenges with
          | Seq items => existsb (mentions ["compliance"]) items
          | _ => false
          end
  then 4%Q
  else if contains "moderate" data_sensitivity then 3%Q
  else 2%Q.

Definition _calculate_confidence_score (use_case_data : gmap string obj)
    : Q :=
  let long_description :=
    get_default use_case_data "long_description" (Scalar (VStr "")) in
  let current_process :=
    get_default use_case_data "current_process" (Seq []) in
  let systems_involved :=
    get_default use_case_data "systems_involved" (Seq []) in
  let score := 1%Q in
  let score :=
    if (200 <? text_length long_description)%nat then (score + (3 # 2))%Q
    else if (100 <? text_length long_description)%nat then (score + 1)%Q
    else score in
  let score :=
    match current_process with
    | Seq items =>
        if (3 <? length items)%nat then (score + (3 # 2))%Q
        else if (1 <? length items)%nat then (score + 1)%Q
        else score
    | _ => score
    end in
  let score :=
    match systems_involved with
    | Seq items =>
        if (0 <? length items)%nat then (score + 1)%Q else score
    | _ => score
    end in
  if Qlt_bool 5 score then 5%Q else score.

Definition _calculate_customer_reach_score
    (use_case_data : gmap string obj) : Q :=
  let teams_benefited := get_default use_case_data "teams_benefited" (Seq []) in
  let use_case_category :=
    lowered (get_default use_case_data "use_case_category"
               (Scalar (VStr ""))) in
  if existsb (fun word => contains word use_case_category)
       ["customer"; "sales"; "marketing"; "support"]
  then 5%Q
  else
    match teams_benefited with
    | Seq items =>
        if (2 <? length items)%nat then 4%Q
        else if (1 <? length items)%nat then 3%Q
        else 2%Q
    | _ => 2%Q
    end.

End Helpers.

End Estimates.

(** ** Rows and totals of the summary table *)








(** A session that holds an edit of the stored title "A". *)
Definition edited_session : Dict.t (gmap string value) :=
  [("A", hours_only)].

(** ** Computations that return *)

Section Returns.

Lemma returns_bind {A B : Type} (m : except A) (k : A -> except B)
    (Q : A -> Prop) (P : B -> Prop) :
  returns m Q -> (forall a, Q a -> returns (k a) P) -> returns (bind m k) P.
Proof. destruct m; simpl; [auto | tauto]. Qed.

Lemma returns_mono {A : Type} (m : except A) (Q P : A -> Prop) :
  returns m Q -> (forall a, Q a -> P a) -> returns m P.
Proof. destruct m; simpl; [auto | tauto]. Qed.

Lemma returns_Ok {A : Type} (m : except A) (P : A -> Prop) :
  returns m P <-> exists a, m = Ok a /\ P a.
Proof.
  destruct m; simpl; split.
  - eauto.
  - intros (? & [= <-] & ?); assumption.
  - tauto.
  - intros (? & [=] & _).
Qed.

End Returns.

(** ** Numbers behind values *)

Section Numbers.

Local Open Scope Q_scope.

Lemma is_num_eq v x y : is_num v x -> x == y -> is_num v y.
Proof.
  unfold is_num. destruct (as_Q v); [|tauto]. intros -> ?. assumption.
Qed.

Lemma is_num_inj v x y : is_num v x -> is_num v y -> x == y.
Proof.
  unfold is_num. destruct (as_Q v); [|tauto]. intros <- <-. reflexivity.
Qed.

Lemma is_num_int z : is_num (VInt z) (inject_Z z).
Proof. unfold is_num; simpl. reflexivity. Qed.

Lemma is_num_float q : is_num (VFloat q) q.
Proof. unfold is_num; simpl. reflexivity. Qed.

Lemma Qlt_bool_iff x y : Qlt_bool x y = true <-> x < y.
Proof.
  unfold Qlt_bool. rewrite negb_true_iff, <- not_true_iff_false, Qle_bool_iff.
  split; [apply Qnot_le_lt | apply Qlt_not_le].
Qed.

Lemma Qlt_bool_false x y : Qlt_bool x y = false <-> y <= x.
Proof.
  unfold Qlt_bool. rewrite negb_false_iff. apply Qle_bool_iff.
Qed.

Lemma Qeq_bool_false x y : Qeq_bool x y = false <-> ~ x == y.
Proof.
  rewrite <- not_true_iff_false, Qeq_bool_iff. tauto.
Qed.

Ltac num_cases :=
  repeat match goal with
  | H : is_num ?v _ |- _ =>
      is_var v; destruct v; unfold is_num in H; simpl in H; try contradiction
  end.

Lemma py_mul_num a b x y :
  is_num a x -> is_num b y ->
  returns (py_mul a b) (fun v => is_num v (x * y)).
Proof.
  intros Ha Hb. num_cases;
    unfold is_num; simpl; rewrite ?inject_Z_mult, ?Ha, ?Hb; reflexivity.
Qed.

Lemma py_add_num a b x y :
  is_num a x -> is_num b y ->
  returns (py_add a b) (fun v => is_num v (x + y)).
Proof.
  intros Ha Hb. num_cases;
    unfold is_num; simpl; rewrite ?inject_Z_plus, ?Ha, ?Hb; reflexivity.
Qed.

Lemma py_sub_num a b x y :
  is_num a x -> is_num b y ->
  returns (py_sub a b) (fun v => is_num v (x - y)).
Proof.
  intros Ha Hb. num_cases;
    unfold is_num; simpl; rewrite <- ?Ha, <- ?Hb; unfold Z.sub;
    rewrite ?inject_Z_plus, ?inject_Z_opp; reflexivity.
Qed.

Lemma py_div_num a b x y :
  is_num a x -> is_num b y -> ~ y == 0 ->
  returns (py_div a b) (fun v => is_num v (x / y)).
Proof.
  unfold is_num, py_div. intros Ha Hb Hy.
  destruct (as_Q a) as [x'|]; [|contradiction].
  destruct (as_Q b) as [y'|]; [|contradiction].
  destruct (Qeq_bool y' 0) eqn:E.
  - apply Qeq_bool_iff in E. rewrite Hb in E. contradiction.
  - simpl. rewrite Ha, Hb. reflexivity.
Qed.

Lemma py_gt_num a b x y :
  is_num a x -> is_num b y ->
  returns (py_gt a b) (fun g => g = true <-> y < x).
Proof.
  intros Ha Hb. num_cases; simpl;
    rewrite Qlt_bool_iff, Ha, Hb; reflexivity.
Qed.

Lemma py_max_num a b x y :
  is_num a x -> is_num b y ->
  returns (py_max a b) (fun v => is_num v (Qmax x y)).
Proof.
  intros Ha Hb. unfold py_max.
  apply (returns_bind _ _ _ _ (py_gt_num b a y x Hb Ha)).
  intros g Hg. simpl. destruct g.
  - apply (is_num_eq _ _ _ Hb). symmetry. apply Q.max_r.
    apply Qlt_le_weak, Hg; reflexivity.
  - apply (is_num_eq _ _ _ Ha). symmetry. apply Q.max_l.
    apply Qnot_lt_le. intros H. apply Hg in H. discriminate.
Qed.

End Numbers.

(** ** The calculator on records of numbers *)

Section Engine.

Local Open Scope Q_scope.

Lemma Qeq_bool_inject_Z z : Qeq_bool (inject_Z z) 0 = (z =? 0)%Z.
Proof.
  destruct (Z.eqb_spec z 0) as [->|Hz]; [reflexivity|].
  apply Qeq_bool_false. intros H. apply Hz.
  unfold Qeq in H; simpl in H. lia.
Qed.

Lemma py_or_field inputs k dv d :
  numeric_or_missing inputs k = true -> is_num dv d ->
  is_num (py_or (dict_get inputs k) dv) (field_Q inputs k d).
Proof.
  unfold numeric_or_missing, field_Q, dict_get, py_or.
  destruct (inputs !! k) as [[|z|q|s]|]; simpl; intros Hk Hd;
    try discriminate; try assumption.
  - rewrite Qeq_bool_inject_Z.
    destruct (z =? 0)%Z; simpl; [assumption | apply is_num_int].
  - destruct (Qeq_bool q 0); simpl; [assumption | apply is_num_float].
Qed.

Variable inputs : gmap string value.

Let fte := field_Q inputs "labor_impact_hours" 0.
Let rate := field_Q inputs "labor_cost_hourly" 100.
Let saved := field_Q inputs "cost_avoidance_annual" 0.
Let revenue := field_Q inputs "revenue_impact_annual" 0.
Let ttv := field_Q inputs "time_to_value_hours" 0.
Let conf := field_Q inputs "confidence_level" 0.
Let risk := field_Q inputs "risk_mitigation_score" 0.
Let reach := field_Q inputs "customer_reach_score" 0.
Let MB := fte * rate + saved / 12 + revenue / 12.
Let IC := ttv * rate.

Lemma Qmax_cent_nonzero x : ~ Qmax x (1 # 100) == 0.
Proof.
  pose proof (Q.le_max_r x (1 # 100)). intros E. rewrite E in H. lra.
Qed.

Lemma twelve_nonzero : ~ inject_Z 12 == 0.
Proof. discriminate. Qed.

Lemma three_nonzero : ~ inject_Z 3 == 0.
Proof. discriminate. Qed.

Ltac num_arg :=
  first [ eassumption | apply is_num_int | apply is_num_float
        | apply Qmax_cent_nonzero | apply twelve_nonzero
        | apply three_nonzero ].

Ltac run lem :=
  eapply returns_bind; [ eapply lem; num_arg | cbv beta; intros ? ? ].

Lemma calculate_numeric :
  numeric_inputs inputs = true ->
  returns (calculate_roi_with_inputs inputs) (fun r =>
    is_num (monthly_benefit r) MB /\
    is_num (annual_benefit r) (MB * 12) /\
    is_num (implementation_cost r) IC /\
    match payback_period_months r with
    | Months p => 0 < MB /\ is_num p (IC / Qmax MB (1 # 100))
    | Infinite => MB <= 0
    end /\
    (0 < IC ->
     is_num (annual_roi_percentage r)
       ((12 * MB - IC) / Qmax IC (1 # 100) * 100)) /\
    (IC <= 0 -> annual_roi_percentage r = VInt 0) /\
    is_num (strategic_value r) ((risk + reach + conf) / 3) /\
    is_num (fte_hours_saved r) fte /\
    is_num (costs_saved_annual r) saved /\
    is_num (revenue_generated_annual r) revenue /\
    is_num (time_to_value_hours r) ttv /\
    is_num (confidence_score r) conf /\
    is_num (risk_mitigation_score r) risk /\
    is_num (customer_reach_score r) reach).
Proof.
  unfold numeric_inputs, calculator_fields. cbn [forallb].
  rewrite !andb_true_iff.
  intros (H1 & H2 & H3 & H4 & H5 & H6 & H7 & H8 & _).
  pose proof (py_or_field _ _ _ _ H1 (is_num_int 0)) as F1.
  pose proof (py_or_field _ _ _ _ H2 (is_num_float 100)) as F2.
  pose proof (py_or_field _ _ _ _ H3 (is_num_int 0)) as F3.
  pose proof (py_or_field _ _ _ _ H4 (is_num_int 0)) as F4.
  pose proof (py_or_field _ _ _ _ H5 (is_num_int 0)) as F5.
  pose proof (py_or_field _ _ _ _ H6 (is_num_int 0)) as F6.
  pose proof (py_or_field _ _ _ _ H7 (is_num_int 0)) as F7.
  pose proof (py_or_field _ _ _ _ H8 (is_num_int 0)) as F8.
  clear H1 H2 H3 H4 H5 H6 H7 H8.
  change (inject_Z 0) with 0 in F1, F3, F4, F5, F6, F7, F8.
  fold fte in F1. fold rate in F2. fold saved in F3. fold revenue in F4.
  fold ttv in F5. fold conf in F6. fold risk in F7. fold reach in F8.
  unfold calculate_roi_with_inputs, blended_hourly_rate. cbv zeta.
  run py_mul_num. run py_div_num. run py_add_num. run py_div_num.
  run py_add_num. run py_mul_num. run py_gt_num.
  change (inject_Z 12) with 12 in *. change (inject_Z 0) with 0 in *.
  fold MB in H3, H5. fold IC in H4.
  eapply (returns_bind _ _ (fun pb =>
    match pb with
    | Months p => 0 < MB /\ is_num p (IC / Qmax MB (1 # 100))
    | Infinite => MB <= 0
    end)).
  { destruct a5.
    - run py_max_num. run py_div_num. simpl. split; [|assumption].
      apply H5; reflexivity.
    - simpl. apply Qnot_lt_le. intros Hlt. apply H5 in Hlt. discriminate. }
  intros pb Hpb. run py_gt_num. change (inject_Z 0) with 0 in *.
  eapply (returns_bind _ _ (fun roi =>
    (0 < IC -> is_num roi ((12 * MB - IC) / Qmax IC (1 # 100) * 100)) /\
    (IC <= 0 -> roi = VInt 0))).
  { destruct a6.
    - run py_mul_num. run py_sub_num. run py_max_num. run py_div_num.
      eapply returns_mono; [eapply py_mul_num; num_arg|].
      cbv beta. intros roi Hroi. change (inject_Z 12) with 12 in *.
      change (inject_Z 100) with 100 in *. split.
      + intros _. exact Hroi.
      + intros Hle. assert (0 < IC) by (apply H6; reflexivity). lra.
    - simpl. split; [|reflexivity].
      intros Hlt. apply H6 in Hlt. discriminate. }
  intros roi (Hroi1 & Hroi2).
  run py_add_num. run py_add_num. run py_div_num.
  run py_mul_num. run py_div_num. run py_div_num. run py_mul_num.
  simpl. repeat split; try assumption.
Qed.

End Engine.

(** ** Exact numbers against floats that overflow *)

Section Overflow.

Local Open Scope Q_scope.

Lemma returns_and {A : Type} (m : except A) (P R : A -> Prop) :
  returns m P -> returns m R -> returns m (fun a => P a /\ R a).
Proof. destruct m; simpl; tauto. Qed.

Lemma agree_bind {A B A' B' : Type} (f : A -> A') (g : B -> B')
    (m : except A) (m' : Ieee.except A') (k : A -> except B)
    (k' : A' -> Ieee.except B') (P : A -> Prop) (R : B -> Prop) :
  agree f m m' P ->
  (forall a, P a -> agree g (k a) (k' (f a)) R) ->
  agree g (bind m k) (Ieee.bind m' k') R.
Proof.
  unfold agree. destruct m as [a|]; [|tauto].
  intros [-> Ha] Hk. simpl. apply Hk. exact Ha.
Qed.

Lemma agree_mono {A B : Type} (f : A -> B) (m : except A)
    (m' : Ieee.except B) (P R : A -> Prop) :
  agree f m m' P -> (forall a, P a -> R a) -> agree f m m' R.
Proof. unfold agree. destruct m; [|tauto]. intros [-> Ha] H. auto. Qed.

Lemma agree_returns {A B : Type} (f : A -> B) (m : except A)
    (m' : Ieee.except B) (P : A -> Prop) :
  agree f m m' P -> returns m (fun a => m' = Ieee.Ok (f a) /\ P a).
Proof. unfold agree. destruct m; simpl; tauto. Qed.

Lemma to_double_finite q M :
  Qabs q <= M -> M < double_range -> Ieee.to_double q = Ieee.Finite q.
Proof.
  intros Hq HM. unfold Ieee.to_double. fold double_range.
  apply Qabs_Qle_condition in Hq as [Hlo Hhi].
  destruct (Qle_bool double_range q) eqn:E1.
  - apply Qle_bool_iff in E1. lra.
  - destruct (Qle_bool q (- double_range)) eqn:E2; [|reflexivity].
    apply Qle_bool_iff in E2. lra.
Qed.

Lemma to_float_finite z M :
  Qabs (inject_Z z) <= M -> M < double_range ->
  Ieee.to_float z = Ieee.Ok (Ieee.Finite (inject_Z z)).
Proof.
  intros Hq HM. unfold Ieee.to_float.
  destruct (Ieee.overflow_threshold <=? Z.abs z)%Z eqn:E; [|reflexivity].
  apply Z.leb_le in E. exfalso.
  assert (H : double_range <= Qabs (inject_Z z)).
  { unfold double_range. change (Qabs (inject_Z z)) with (inject_Z (Z.abs z)).
    rewrite <- Zle_Qle. exact E. }
  lra.
Qed.

Lemma magnitude_product x y Ma Mb :
  Qabs x <= Ma -> Qabs y <= Mb -> Qabs (x * y) <= Ma * Mb.
Proof.
  intros Hx Hy. rewrite Qabs_Qmult.
  apply Qmult_le_compat_nonneg; split; auto using Qabs_nonneg.
Qed.

Lemma magnitude_sum x y Ma Mb :
  Qabs x <= Ma -> Qabs y <= Mb -> Qabs (x + y) <= Ma + Mb.
Proof.
  intros Hx Hy. pose proof (Qabs_triangle x y). lra.
Qed.

Lemma magnitude_difference x y Ma Mb :
  Qabs x <= Ma -> Qabs y <= Mb -> Qabs (x - y) <= Ma + Mb.
Proof.
  intros Hx Hy. unfold Qminus. apply magnitude_sum; [exact Hx|].
  rewrite Qabs_opp. exact Hy.
Qed.

Lemma magnitude_quotient x y Ma L :
  Qabs x <= Ma -> L <= Qabs y -> 0 < L -> Qabs (x / y) <= Ma / L.
Proof.
  intros Hx Hy HL. unfold Qdiv at 1. rewrite Qabs_Qmult, Qabs_Qinv.
  pose proof (Qabs_nonneg x) as Hx0.
  assert (H0 : 0 <= Ma / L) by (apply Qle_shift_div_l; lra).
  apply Qle_shift_div_r; [lra|].
  assert (E : Ma == Ma / L * L) by (field; lra).
  apply (Qle_trans _ Ma); [exact Hx|]. rewrite E at 1.
  apply Qmult_le_compat_nonneg; split; try lra.
Qed.

Lemma apart_from_zero y L : L <= Qabs y -> 0 < L -> Qeq_bool y 0 = false.
Proof.
  intros Hy HL. apply Qeq_bool_false. intros E. rewrite E in Hy.
  change (Qabs 0) with 0 in Hy. lra.
Qed.

Ltac number a H :=
  destruct a; unfold magnitude in H; cbn [as_Q] in H; try contradiction.

Lemma mul_agree a b Ma Mb :
  magnitude a Ma -> magnitude b Mb ->
  Ma < double_range -> Mb < double_range -> Ma * Mb < double_range ->
  agree Ieee.lift (py_mul a b) (Ieee.py_mul (Ieee.lift a) (Ieee.lift b))
    (fun c => magnitude c (Ma * Mb)).
Proof.
  intros Ha Hb HMa HMb HM.
  number a Ha; number b Hb; unfold agree, magnitude;
    pose proof (magnitude_product _ _ _ _ Ha Hb) as Hp;
    cbn [py_mul Ieee.lift Ieee.py_mul as_Q];
    rewrite ?(to_float_finite _ _ Ha HMa), ?(to_float_finite _ _ Hb HMb);
    cbn [Ieee.bind Ieee.fmul]; rewrite ?(to_double_finite _ _ Hp HM);
    rewrite ?inject_Z_mult; split; (reflexivity || exact Hp).
Qed.

Lemma add_agree a b Ma Mb :
  magnitude a Ma -> magnitude b Mb ->
  Ma < double_range -> Mb < double_range -> Ma + Mb < double_range ->
  agree Ieee.lift (py_add a b) (Ieee.py_add (Ieee.lift a) (Ieee.lift b))
    (fun c => magnitude c (Ma + Mb)).
Proof.
  intros Ha Hb HMa HMb HM.
  number a Ha; number b Hb; unfold agree, magnitude;
    pose proof (magnitude_sum _ _ _ _ Ha Hb) as Hp;
    cbn [py_add Ieee.lift Ieee.py_add as_Q];
    rewrite ?(to_float_finite _ _ Ha HMa), ?(to_float_finite _ _ Hb HMb);
    cbn [Ieee.bind Ieee.fadd]; rewrite ?(to_double_finite _ _ Hp HM);
    rewrite ?inject_Z_plus; split; (reflexivity || exact Hp).
Qed.

Lemma sub_agree a b Ma Mb :
  magnitude a Ma -> magnitude b Mb ->
  Ma < double_range -> Mb < double_range -> Ma + Mb < double_range ->
  agree Ieee.lift (py_sub a b) (Ieee.py_sub (Ieee.lift a) (Ieee.lift b))
    (fun c => magnitude c (Ma + Mb)).
Proof.
  intros Ha Hb HMa HMb HM.
  number a Ha; number b Hb; unfold agree, magnitude;
    pose proof (magnitude_difference _ _ _ _ Ha Hb) as Hp;
    cbn [py_sub Ieee.lift Ieee.py_sub as_Q];
    rewrite ?(to_float_finite _ _ Ha HMa), ?(to_float_finite _ _ Hb HMb);
    cbn [Ieee.bind Ieee.fsub Ieee.fneg Ieee.fadd];
    change (?x + - ?y) with (x - y);
    rewrite ?(to_double_finite _ _ Hp HM);
    unfold Z.sub; rewrite ?inject_Z_plus, ?inject_Z_opp;
    split; (reflexivity || exact Hp).
Qed.

Lemma div_agree a b Ma Mb L :
  magnitude a Ma -> magnitude b Mb -> at_least b L -> 0 < L ->
  Ma < double_range -> Mb < double_range -> Ma / L < double_range ->
  agree Ieee.lift (py_div a b) (Ieee.py_div (Ieee.lift a) (Ieee.lift b))
    (fun c => magnitude c (Ma / L)).
Proof.
  intros Ha Hb Hl HL HMa HMb HM.
  number a Ha; number b Hb; unfold at_least in Hl; cbn [as_Q] in Hl;
    unfold agree, magnitude, py_div;
    pose proof (magnitude_quotient _ _ _ _ Ha Hl HL) as Hp;
    pose proof (apart_from_zero _ _ Hl HL) as Hz;
    pose proof Hz as Hz'; rewrite ?Qeq_bool_inject_Z in Hz';
    cbn [Ieee.lift Ieee.py_div as_Q]; rewrite Hz, ?Hz';
    rewrite ?(to_float_finite _ _ Ha HMa), ?(to_float_finite _ _ Hb HMb);
    cbn [Ieee.bind]; unfold Ieee.float_div; cbn [Ieee.is_zero Ieee.fdiv];
    rewrite ?Hz, ?(to_double_finite _ _ Hp HM);
    split; (reflexivity || exact Hp).
Qed.

Lemma Qlt_bool_inject_Z x y :
  Qlt_bool (inject_Z x) (inject_Z y) = (x <? y)%Z.
Proof.
  destruct (Z.ltb_spec x y) as [H|H].
  - apply Qlt_bool_iff. rewrite <- Zlt_Qlt. exact H.
  - apply Qlt_bool_false. rewrite <- Zle_Qle. exact H.
Qed.

Lemma gt_agree a b Ma Mb :
  magnitude a Ma -> magnitude b Mb ->
  agree (fun g : bool => g) (py_gt a b)
    (Ieee.py_gt (Ieee.lift a) (Ieee.lift b))
    (fun g => forall x y, as_Q a = Some x -> as_Q b = Some y ->
                g = Qlt_bool y x).
Proof.
  intros Ha Hb.
  number a Ha; number b Hb; unfold agree;
    cbn [py_gt Ieee.lift Ieee.py_gt as_Q Ieee.fgt];
    rewrite ?Qlt_bool_inject_Z;
    (split; [reflexivity|]); intros x y [= <-] [= <-];
    rewrite ?Qlt_bool_inject_Z; reflexivity.
Qed.

Lemma max_agree a Ma c :
  magnitude a Ma -> Qabs c <= Ma -> 0 < c ->
  agree Ieee.lift (py_max a (VFloat c))
    (Ieee.py_max (Ieee.lift a) (Ieee.VFloat (Ieee.Finite c)))
    (fun m => magnitude m Ma /\ at_least m c).
Proof.
  intros Ha Hc Hpos. unfold py_max, Ieee.py_max.
  eapply agree_bind.
  - apply (gt_agree (VFloat c) a Ma Ma); [exact Hc | exact Ha].
  - cbv beta. intros g Hg.
    unfold magnitude in Ha. unfold agree, magnitude, at_least.
    destruct (as_Q a) as [x|] eqn:E; [|contradiction].
    specialize (Hg c x eq_refl eq_refl).
    split; [destruct g; reflexivity|].
    destruct g; cbn [as_Q]; rewrite ?E.
    + split; [exact Hc | apply Qle_Qabs].
    + split; [exact Ha|].
      symmetry in Hg. apply Qlt_bool_false in Hg.
      apply (Qle_trans _ x); [exact Hg | apply Qle_Qabs].
Qed.

Lemma truthy_lift v : Ieee.truthy (Ieee.lift v) = truthy v.
Proof. destruct v; reflexivity. Qed.

Lemma py_or_lift a b :
  Ieee.py_or (Ieee.lift a) (Ieee.lift b) = Ieee.lift (py_or a b).
Proof.
  unfold Ieee.py_or, py_or. rewrite truthy_lift.
  destruct (truthy a); reflexivity.
Qed.

Lemma dict_get_lift (inputs : gmap string value) k :
  Ieee.dict_get (Ieee.lift <$> inputs) k = Ieee.lift (dict_get inputs k).
Proof.
  unfold Ieee.dict_get, dict_get. rewrite lookup_fmap.
  destruct (inputs !! k); reflexivity.
Qed.

Lemma field_lift (inputs : gmap string value) k d :
  Ieee.py_or (Ieee.dict_get (Ieee.lift <$> inputs) k) (Ieee.lift d)
  = Ieee.lift (py_or (dict_get inputs k) d).
Proof. rewrite dict_get_lift. apply py_or_lift. Qed.

Lemma field_magnitude inputs k d :
  numeric_or_missing inputs k = true -> within_bound inputs k = true ->
  magnitude d magnitude_bound ->
  magnitude (py_or (dict_get inputs k) d) magnitude_bound.
Proof.
  unfold numeric_or_missing, within_bound, dict_get, py_or.
  destruct (inputs !! k) as [[|z|q|s]|]; cbn [truthy as_Q is_number];
    intros Hn Hw Hd; try discriminate; try exact Hd.
  - destruct (negb (z =? 0)%Z); [|exact Hd].
    unfold magnitude. cbn [as_Q]. apply Qle_bool_iff. exact Hw.
  - destruct (negb (Qeq_bool q 0)); [|exact Hd].
    unfold magnitude. cbn [as_Q]. apply Qle_bool_iff. exact Hw.
Qed.

Ltac closed :=
  first [ eassumption
        | apply Qle_bool_iff; vm_compute; reflexivity
        | apply Qlt_bool_iff; vm_compute; reflexivity ].

Ltac step lem :=
  eapply agree_bind; [ eapply lem; closed | cbv beta; intros ? ? ].

Lemma constant_magnitude z :
  magnitude (VInt z) (inject_Z (Z.abs z)) /\
  at_least (VInt z) (inject_Z (Z.abs z)).
Proof. unfold magnitude, at_least. cbn [as_Q]. split; apply Qle_refl. Qed.

(** On a record of numbers within the bound no step of the calculator
    overflows: evaluated over floats that overflow it returns the result it
    returns over exact numbers. *)
Lemma calculate_agrees inputs :
  numeric_inputs inputs = true -> bounded_inputs inputs = true ->
  agree Ieee.lift_result (calculate_roi_with_inputs inputs)
    (Ieee.calculate_roi_with_inputs (Ieee.lift <$> inputs))
    (fun _ => True).
Proof.
  unfold numeric_inputs, bounded_inputs, calculator_fields. cbn [forallb].
  rewrite !andb_true_iff.
  intros (N1 & N2 & N3 & N4 & N5 & N6 & N7 & N8 & _)
         (W1 & W2 & W3 & W4 & W5 & W6 & W7 & W8 & _).
  assert (D0 : magnitude (VInt 0) magnitude_bound)
    by (unfold magnitude; cbn [as_Q]; closed).
  assert (D100 : magnitude (VFloat 100) magnitude_bound)
    by (unfold magnitude; cbn [as_Q]; closed).
  pose proof (field_magnitude _ _ _ N1 W1 D0) as F1.
  pose proof (field_magnitude _ _ _ N2 W2 D100) as F2.
  pose proof (field_magnitude _ _ _ N3 W3 D0) as F3.
  pose proof (field_magnitude _ _ _ N4 W4 D0) as F4.
  pose proof (field_magnitude _ _ _ N5 W5 D0) as F5.
  pose proof (field_magnitude _ _ _ N6 W6 D0) as F6.
  pose proof (field_magnitude _ _ _ N7 W7 D0) as F7.
  pose proof (field_magnitude _ _ _ N8 W8 D0) as F8.
  clear N1 N2 N3 N4 N5 N6 N7 N8 W1 W2 W3 W4 W5 W6 W7 W8.
  destruct (constant_magnitude 12) as [C12 A12].
  destruct (constant_magnitude 3) as [C3 A3].
  destruct (constant_magnitude 100) as [C100 _].
  change (Z.abs 12) with 12%Z in *. change (Z.abs 3) with 3%Z in *.
  change (Z.abs 100) with 100%Z in *.
  unfold calculate_roi_with_inputs, Ieee.calculate_roi_with_inputs,
    blended_hourly_rate, Ieee.blended_hourly_rate. cbv zeta.
  change (Ieee.VInt 0) with (Ieee.lift (VInt 0)).
  change (Ieee.VFloat (Ieee.Finite 100)) with (Ieee.lift (VFloat 100)).
  rewrite !field_lift.
  change (Ieee.VInt 12) with (Ieee.lift (VInt 12)).
  change (Ieee.VInt 3) with (Ieee.lift (VInt 3)).
  change (Ieee.VInt 100) with (Ieee.lift (VInt 100)).
  set (fte := py_or (dict_get inputs "labor_impact_hours") (VInt 0)) in *.
  set (rate := py_or (dict_get inputs "labor_cost_hourly") (VFloat 100)) in *.
  set (saved := py_or (dict_get inputs "cost_avoidance_annual") (VInt 0)) in *.
  set (earned := py_or (dict_get inputs "revenue_impact_annual") (VInt 0)) in *.
  set (ttv := py_or (dict_get inputs "time_to_value_hours") (VInt 0)) in *.
  set (conf := py_or (dict_get inputs "confidence_level") (VInt 0)) in *.
  set (risk := py_or (dict_get inputs "risk_mitigation_score") (VInt 0)) in *.
  set (reach := py_or (dict_get inputs "customer_reach_score") (VInt 0)) in *.
  step mul_agree. step div_agree. step add_agree. step div_agree.
  step add_agree. step mul_agree. step gt_agree.
  eapply (agree_bind Ieee.lift_payback _ _ _ _ _ (fun _ => True)).
  { destruct a5.
    - eapply agree_bind;
        [eapply max_agree; closed | cbv beta; intros m [Hm Hl]].
      step div_agree. split; [reflexivity | exact I].
    - split; [reflexivity | exact I]. }
  intros pb _. step gt_agree.
  eapply (agree_bind Ieee.lift _ _ _ _ _ (fun _ => True)).
  { destruct a6.
    - step mul_agree. step sub_agree.
      eapply agree_bind;
        [eapply max_agree; closed | cbv beta; intros m [Hm Hl]].
      step div_agree.
      eapply agree_mono; [eapply mul_agree; closed | intros; exact I].
    - split; [reflexivity | exact I]. }
  intros roi _.
  step add_agree. step add_agree. step div_agree.
  step mul_agree. step div_agree. step div_agree. step mul_agree.
  split; [reflexivity | exact I].
Qed.

Lemma calculate_no_overflow inputs :
  numeric_inputs inputs = true -> bounded_inputs inputs = true ->
  returns (calculate_roi_with_inputs inputs) (no_overflow inputs).
Proof.
  intros Hn Hb.
  pose proof (agree_returns _ _ _ _ (calculate_agrees inputs Hn Hb)) as H.
  eapply returns_mono; [exact H|]. cbv beta. intros r [E _]. exact E.
Qed.

End Overflow.

(** ** Properties of the formula engine *)

Section EngineFacts.

Local Open Scope Q_scope.

Example spec_example_results :
  returns (calculate_roi_with_inputs spec_example) (fun r =>
    is_num (monthly_benefit r) 800 /\
    is_num (annual_benefit r) 9600 /\
    is_num (implementation_cost r) 1000 /\
    (exists p, payback_period_months r = Months p /\ is_num p (5 # 4)) /\
    is_num (annual_roi_percentage r) 860 /\
    is_num (strategic_value r) 4).
Proof.
  vm_compute. repeat split. exists (VFloat (144000 # 115200)).
  split; reflexivity.
Qed.

(** Away from the sub-cent range the guard [max(., 0.01)] is the identity and
    both quotients are the plain ones. *)
Lemma quotients_exact_from_one_cent (inputs : gmap string value) :
  numeric_inputs inputs = true ->
  returns (calculate_roi_with_inputs inputs) (fun r =>
    forall mb ic,
      is_num (monthly_benefit r) mb -> is_num (implementation_cost r) ic ->
      (1 # 100 <= mb ->
       exists p, payback_period_months r = Months p /\ is_num p (ic / mb)) /\
      (1 # 100 <= ic ->
       is_num (annual_roi_percentage r) ((12 * mb - ic) / ic * 100))).
Proof.
  intros Hn. eapply returns_mono; [apply (calculate_numeric inputs Hn)|].
  cbv beta. intros r (Hmb & _ & Hic & Hpb & Hroi & _). intros mb ic Hmb' Hic'.
  pose proof (is_num_inj _ _ _ Hmb Hmb') as Emb.
  pose proof (is_num_inj _ _ _ Hic Hic') as Eic.
  match type of Emb with ?X == _ => set (MB := X) in * end.
  match type of Eic with ?X == _ => set (IC := X) in * end.
  split.
  - intros Hc. destruct (payback_period_months r) as [p|].
    + exists p. split; [reflexivity|]. destruct Hpb as [_ Hp].
      apply (is_num_eq _ _ _ Hp).
      rewrite (Q.max_l MB (1 # 100)) by (rewrite Emb; assumption).
      rewrite Emb, Eic. reflexivity.
    + rewrite Emb in Hpb. lra.
  - intros Hc. apply (is_num_eq _ (((12 * MB - IC) / Qmax IC (1 # 100)) * 100)).
    + apply Hroi. rewrite Eic. lra.
    + rewrite (Q.max_l IC (1 # 100)) by (rewrite Eic; assumption).
      rewrite Emb, Eic. reflexivity.
Qed.

(** C1 (defect in the code).  The claim: with a positive monthly benefit the
    payback period is exactly implementation cost / monthly benefit, and with
    a positive implementation cost the annual ROI is exactly
    (12 * monthly benefit - cost) / cost * 100.  The code divides by
    [max(denominator, 0.01)]: on [sub_cent_case], where benefit and cost are
    both 1/256, it returns a payback of 25/64 instead of 1 and an ROI of
    6875/16 instead of 1100. *)
Theorem C1_sub_cent_denominator_replaced :
  returns (calculate_roi_with_inputs sub_cent_case) (fun r =>
    is_num (monthly_benefit r) (1 # 256) /\
    is_num (implementation_cost r) (1 # 256) /\
    (exists p, payback_period_months r = Months p /\
       is_num p (25 # 64) /\
       ~ is_num p ((1 # 256) / (1 # 256))) /\
    is_num (annual_roi_percentage r) (6875 # 16) /\
    ~ is_num (annual_roi_percentage r)
        ((12 * (1 # 256) - (1 # 256)) / (1 # 256) * 100)).
Proof.
  vm_compute. repeat split; try discriminate.
  eexists. repeat split; discriminate.
Qed.

(** *** Totality and defaults *)

Lemma field_Q_missing inputs k d :
  missing inputs k = true -> field_Q inputs k d = d.
Proof.
  unfold missing, field_Q, dict_get.
  destruct (inputs !! k) as [[| | |]|]; intros; try discriminate; reflexivity.
Qed.

(** Two records give the same result when they agree on what the calculator
    reads: seven fields under [or 0] and the hourly rate under
    [or self.blended_hourly_rate]. *)
Lemma calculate_same_fields (inputs1 inputs2 : gmap string value) :
  (forall k, In k zero_defaulted ->
     py_or (dict_get inputs1 k) (VInt 0)
     = py_or (dict_get inputs2 k) (VInt 0)) ->
  py_or (dict_get inputs1 "labor_cost_hourly") blended_hourly_rate
  = py_or (dict_get inputs2 "labor_cost_hourly") blended_hourly_rate ->
  calculate_roi_with_inputs inputs1 = calculate_roi_with_inputs inputs2.
Proof.
  intros H E2.
  assert (E1 := H "labor_impact_hours" ltac:(simpl; tauto)).
  assert (E3 := H "cost_avoidance_annual" ltac:(simpl; tauto)).
  assert (E4 := H "revenue_impact_annual" ltac:(simpl; tauto)).
  assert (E5 := H "time_to_value_hours" ltac:(simpl; tauto)).
  assert (E6 := H "confidence_level" ltac:(simpl; tauto)).
  assert (E7 := H "risk_mitigation_score" ltac:(simpl; tauto)).
  assert (E8 := H "customer_reach_score" ltac:(simpl; tauto)).
  unfold calculate_roi_with_inputs.
  rewrite !E1, !E2, !E3, !E4, !E5, !E6, !E7, !E8. reflexivity.
Qed.

Lemma missing_reads_as_default inputs k d :
  missing inputs k = true -> py_or (dict_get inputs k) d = d.
Proof.
  unfold missing, dict_get, py_or.
  destruct (inputs !! k) as [[| | |]|]; intros; try discriminate; reflexivity.
Qed.

(** C2 (counterexample).  The function is not total over arbitrary mappings:
    a text in a numeric field raises [TypeError], and an [int] of 10^400
    hours raises [OverflowError] when it meets the float rate.  And a
    missing [labor_cost_hourly] is not treated as 0: with one hour saved and
    nothing else the monthly benefit is 100, not 0. *)
Lemma C2_counterexample :
  calculate_roi_with_inputs text_in_hours = Raise TypeError /\
  Ieee.calculate_roi_with_inputs (Ieee.lift <$> text_in_hours)
  = Ieee.Raise Ieee.TypeError /\
  numeric_inputs huge_hours = true /\
  Ieee.calculate_roi_with_inputs (Ieee.lift <$> huge_hours)
  = Ieee.Raise Ieee.OverflowError /\
  missing hours_only "labor_cost_hourly" = true /\
  returns (calculate_roi_with_inputs hours_only) (fun r =>
    is_num (monthly_benefit r) 100 /\ ~ is_num (monthly_benefit r) (1 * 0)).
Proof.
  split; [reflexivity|]. split; [vm_compute; reflexivity|].
  split; [reflexivity|]. split; [vm_compute; reflexivity|].
  split; [reflexivity|]. vm_compute. split; [reflexivity | discriminate].
Qed.

(** C2 (amended).  On every mapping whose eight fields are each absent,
    [None] or a number of magnitude at most 10^150,
    [calculate_roi_with_inputs] returns a result, without overflow, that
    hands back the seven amounts and scores it read; an absent or [None]
    field counts as 0, except [labor_cost_hourly], which counts as 100:
    writing the default into the record changes nothing. *)
Theorem C2_total_on_bounded_numbers (inputs : gmap string value) :
  numeric_inputs inputs = true ->
  bounded_inputs inputs = true ->
  returns (calculate_roi_with_inputs inputs) (fun r =>
    no_overflow inputs r /\
    is_num (fte_hours_saved r) (field_Q inputs "labor_impact_hours" 0) /\
    is_num (costs_saved_annual r) (field_Q inputs "cost_avoidance_annual" 0) /\
    is_num (revenue_generated_annual r)
      (field_Q inputs "revenue_impact_annual" 0) /\
    is_num (time_to_value_hours r) (field_Q inputs "time_to_value_hours" 0) /\
    is_num (confidence_score r) (field_Q inputs "confidence_level" 0) /\
    is_num (risk_mitigation_score r)
      (field_Q inputs "risk_mitigation_score" 0) /\
    is_num (customer_reach_score r)
      (field_Q inputs "customer_reach_score" 0)) /\
  (forall k d, missing inputs k = true -> field_Q inputs k d = d) /\
  (forall k, In k zero_defaulted -> missing inputs k = true ->
     calculate_roi_with_inputs (<[k := VInt 0]> inputs)
     = calculate_roi_with_inputs inputs) /\
  (missing inputs "labor_cost_hourly" = true ->
     calculate_roi_with_inputs (<["labor_cost_hourly" := VFloat 100]> inputs)
     = calculate_roi_with_inputs inputs).
Proof.
  intros Hn Hb. split; [|split; [|split]].
  - apply returns_and; [apply (calculate_no_overflow inputs Hn Hb)|].
    eapply returns_mono; [apply (calculate_numeric inputs Hn)|].
    cbv beta. intros r H. decompose [and] H. repeat split; assumption.
  - intros k d. apply field_Q_missing.
  - intros k Hk Hm. apply calculate_same_fields.
    + intros k' _. unfold dict_get at 1.
      destruct (decide (k = k')) as [<-|Hne].
      * rewrite lookup_insert_eq, (missing_reads_as_default _ _ _ Hm).
        reflexivity.
      * rewrite lookup_insert_ne by assumption. reflexivity.
    + unfold dict_get at 1. rewrite lookup_insert_ne; [reflexivity|].
      intros ->. simpl in Hk.
      destruct Hk as [E|[E|[E|[E|[E|[E|[E|[]]]]]]]]; discriminate E.
  - intros Hm. apply calculate_same_fields.
    + intros k' Hk'. unfold dict_get at 1.
      rewrite lookup_insert_ne; [reflexivity|]. intros <-. simpl in Hk'.
      destruct Hk' as [E|[E|[E|[E|[E|[E|[E|[]]]]]]]]; discriminate E.
    + unfold dict_get at 1.
      rewrite lookup_insert_eq, (missing_reads_as_default _ _ _ Hm).
      reflexivity.
Qed.

Lemma C2_total_on_bounded_numbers_witness :
  returns (calculate_roi_with_inputs hours_only) (no_overflow hours_only) /\
  calculate_roi_with_inputs (<["cost_avoidance_annual" := VInt 0]> hours_only)
  = calculate_roi_with_inputs hours_only /\
  calculate_roi_with_inputs (<["labor_cost_hourly" := VFloat 100]> hours_only)
  = calculate_roi_with_inputs hours_only.
Proof.
  destruct (C2_total_on_bounded_numbers hours_only)
    as (H1 & _ & H3 & H4); [reflexivity | vm_compute; reflexivity |].
  split; [|split].
  - eapply returns_mono; [exact H1|]. cbv beta. intros r H. apply H.
  - apply H3; [simpl; tauto | reflexivity].
  - apply H4. reflexivity.
Defined.

(** *** Strategic value *)





(** *** Boundaries of the two quotients *)

(** C6 (counterexample).  With a monthly benefit of one cent and an effort of
    10^306 hours the implementation cost is 10^308, a finite float, and the
    payback period, 10^308 / 0.01, overflows to +infinity although the
    monthly benefit is not 0. *)
Lemma C6_counterexample :
  forallb (nonneg_or_missing costly_effort) amount_fields = true /\
  exists r mb ic,
    Ieee.calculate_roi_with_inputs (Ieee.lift <$> costly_effort)
    = Ieee.Ok r /\
    Ieee.monthly_benefit r = Ieee.VFloat (Ieee.Finite mb) /\
    mb == 1 # 100 /\ ~ mb == 0 /\
    Ieee.implementation_cost r = Ieee.VFloat (Ieee.Finite ic) /\
    ic == inject_Z (10 ^ 308) /\
    Ieee.payback_period_months r = Ieee.VFloat Ieee.PosInf.
Proof.
  split; [reflexivity|].
  eexists. eexists. eexists. split; [vm_compute; reflexivity|].
  cbn [Ieee.monthly_benefit Ieee.implementation_cost
       Ieee.payback_period_months].
  split; [reflexivity|]. split; [vm_compute; reflexivity|].
  split; [discriminate|].
  split; [reflexivity|]. split; [vm_compute; reflexivity|]. reflexivity.
Qed.

Lemma nonneg_numeric inputs k :
  nonneg_or_missing inputs k = true -> numeric_or_missing inputs k = true.
Proof.
  unfold nonneg_or_missing, numeric_or_missing.
  destruct (inputs !! k) as [[| | |]|]; simpl; auto.
Qed.

Lemma nonneg_field inputs k d :
  nonneg_or_missing inputs k = true -> 0 <= d -> 0 <= field_Q inputs k d.
Proof.
  unfold nonneg_or_missing, field_Q, dict_get.
  destruct (inputs !! k) as [v|]; [|auto].
  destruct v; simpl; try discriminate; auto;
    rewrite Qle_bool_iff; intros;
    match goal with |- context [Qeq_bool ?q 0] => destruct (Qeq_bool q 0) end;
    assumption.
Qed.

Lemma amounts_nonneg inputs :
  forallb (nonneg_or_missing inputs) amount_fields = true ->
  0 <= field_Q inputs "labor_impact_hours" 0
         * field_Q inputs "labor_cost_hourly" 100
       + field_Q inputs "cost_avoidance_annual" 0 / 12
       + field_Q inputs "revenue_impact_annual" 0 / 12 /\
  0 <= field_Q inputs "time_to_value_hours" 0
         * field_Q inputs "labor_cost_hourly" 100.
Proof.
  unfold amount_fields. cbn [forallb]. rewrite !andb_true_iff.
  intros (A1 & A2 & A3 & A4 & A5 & _).
  pose proof (nonneg_field inputs _ 0 A1 ltac:(lra)) as P1.
  pose proof (nonneg_field inputs _ 100 A2 ltac:(lra)) as P2.
  pose proof (nonneg_field inputs _ 0 A3 ltac:(lra)) as P3.
  pose proof (nonneg_field inputs _ 0 A4 ltac:(lra)) as P4.
  pose proof (nonneg_field inputs _ 0 A5 ltac:(lra)) as P5.
  set (fte := field_Q inputs "labor_impact_hours" 0) in *.
  set (rate := field_Q inputs "labor_cost_hourly" 100) in *.
  set (saved := field_Q inputs "cost_avoidance_annual" 0) in *.
  set (revenue := field_Q inputs "revenue_impact_annual" 0) in *.
  set (ttv := field_Q inputs "time_to_value_hours" 0) in *.
  pose proof (Qmult_le_0_compat _ _ P1 P2) as Q1.
  pose proof (Qmult_le_0_compat _ _ P5 P2) as Q2.
  split; [|assumption].
  assert (0 <= saved / 12) by (apply Qle_shift_div_l; lra).
  assert (0 <= revenue / 12) by (apply Qle_shift_div_l; lra).
  set (x := fte * rate) in *. set (y := saved / 12) in *.
  set (z := revenue / 12) in *. lra.
Qed.

(** C6 (amended).  For every record of numbers whose amounts are
    non-negative or missing and whose numbers have a magnitude of at most
    10^150, the calculator returns without overflow, and: a zero
    implementation cost gives an annual ROI of 0; a positive monthly benefit
    with a zero implementation cost gives a payback of 0 months; and the
    payback is +infinity exactly when the monthly benefit is 0. *)
Theorem C6_zero_boundaries_within_bound (inputs : gmap string value) :
  numeric_inputs inputs = true ->
  forallb (nonneg_or_missing inputs) amount_fields = true ->
  bounded_inputs inputs = true ->
  returns (calculate_roi_with_inputs inputs) (fun r =>
    no_overflow inputs r /\
    forall mb ic,
      is_num (monthly_benefit r) mb -> is_num (implementation_cost r) ic ->
      (ic == 0 -> annual_roi_percentage r = VInt 0) /\
      (0 < mb -> ic == 0 ->
       exists p, payback_period_months r = Months p /\ is_num p 0) /\
      (payback_period_months r = Infinite <-> mb == 0)).
Proof.
  intros Hn Ha Hb.
  apply returns_and; [apply (calculate_no_overflow inputs Hn Hb)|].
  eapply returns_mono; [apply (calculate_numeric inputs Hn)|].
  cbv beta. intros r (Hmb & _ & Hic & Hpb & _ & Hroi & _).
  intros mb ic Hmb' Hic'.
  pose proof (is_num_inj _ _ _ Hmb Hmb') as Emb.
  pose proof (is_num_inj _ _ _ Hic Hic') as Eic.
  destruct (amounts_nonneg inputs Ha) as [Hge _].
  match type of Emb with ?X == _ => set (MB := X) in * end.
  match type of Eic with ?X == _ => set (IC := X) in * end.
  rewrite Emb in Hge.
  split; [|split].
  - intros Hz. apply Hroi. rewrite Eic, Hz. lra.
  - intros Hlt Hz. destruct (payback_period_months r) as [p|].
    + exists p. split; [reflexivity|]. destruct Hpb as [_ Hp].
      apply (is_num_eq _ _ _ Hp). rewrite Eic, Hz.
      unfold Qdiv. apply Qmult_0_l.
    + rewrite Emb in Hpb. lra.
  - split.
    + intros E. rewrite E in Hpb. rewrite Emb in Hpb. lra.
    + intros Hz. destruct (payback_period_months r) as [p|]; [|reflexivity].
      destruct Hpb as [Hlt _]. rewrite Emb in Hlt. lra.
Qed.

Lemma C6_zero_boundaries_within_bound_witness :
  returns (calculate_roi_with_inputs hours_only) (fun r =>
    no_overflow hours_only r /\
    forall mb ic,
      is_num (monthly_benefit r) mb -> is_num (implementation_cost r) ic ->
      (ic == 0 -> annual_roi_percentage r = VInt 0) /\
      (0 < mb -> ic == 0 ->
       exists p, payback_period_months r = Months p /\ is_num p 0) /\
      (payback_period_months r = Infinite <-> mb == 0)).
Proof.
  apply (C6_zero_boundaries_within_bound hours_only);
    [reflexivity | reflexivity | vm_compute; reflexivity].
Defined.

(** *** Signs of the outputs *)

(** C10 (counterexample).  With one hour saved and an effort of 10^308 hours,
    both non-negative, the implementation cost overflows to +infinity and
    the annual ROI, (1200 - inf) / inf * 100, is NaN, which is not a number
    of at least -100. *)
Lemma C10_counterexample :
  forallb (nonneg_or_missing huge_effort) amount_fields = true /\
  forallb (numeric_or_missing huge_effort) score_fields = true /\
  exists r,
    Ieee.calculate_roi_with_inputs (Ieee.lift <$> huge_effort) = Ieee.Ok r /\
    Ieee.implementation_cost r = Ieee.VFloat Ieee.PosInf /\
    Ieee.annual_roi_percentage r = Ieee.VFloat Ieee.NaN.
Proof.
  split; [reflexivity|]. split; [reflexivity|].
  eexists. split; [vm_compute; reflexivity|]. split; reflexivity.
Qed.

(** C10 (amended).  When the five amount fields are each absent, [None] or a
    non-negative number, the scores absent, [None] or numbers, and every
    number has a magnitude of at most 10^150, the calculator returns without
    overflow, the monthly benefit, annual benefit, implementation cost and
    payback period are non-negative and the annual ROI is at least -100. *)
Theorem C10_outputs_nonnegative_within_bound (inputs : gmap string value) :
  forallb (nonneg_or_missing inputs) amount_fields = true ->
  forallb (numeric_or_missing inputs) score_fields = true ->
  bounded_inputs inputs = true ->
  returns (calculate_roi_with_inputs inputs) (fun r =>
    no_overflow inputs r /\
    exists mb ab ic roi,
      is_num (monthly_benefit r) mb /\ 0 <= mb /\
      is_num (annual_benefit r) ab /\ 0 <= ab /\
      is_num (implementation_cost r) ic /\ 0 <= ic /\
      match payback_period_months r with
      | Months p => exists q, is_num p q /\ 0 <= q
      | Infinite => True
      end /\
      is_num (annual_roi_percentage r) roi /\ -100 <= roi).
Proof.
  intros Ha Hs Hb. generalize Ha Hs.
  unfold amount_fields at 1, score_fields at 1. cbn [forallb].
  rewrite !andb_true_iff.
  intros (A1 & A2 & A3 & A4 & A5 & _) (S1 & S2 & S3 & _).
  assert (Hn : numeric_inputs inputs = true).
  { unfold numeric_inputs, calculator_fields. cbn [forallb].
    rewrite !andb_true_iff. repeat split; auto using nonneg_numeric. }
  apply returns_and; [apply (calculate_no_overflow inputs Hn Hb)|].
  eapply returns_mono; [apply (calculate_numeric inputs Hn)|].
  cbv beta. intros r (Hmb & Hab & Hic & Hpb & Hroi1 & Hroi2 & _).
  destruct (amounts_nonneg inputs Ha) as [HMB HIC].
  set (IC := field_Q inputs "time_to_value_hours" 0
             * field_Q inputs "labor_cost_hourly" 100) in *.
  set (MB := field_Q inputs "labor_impact_hours" 0
               * field_Q inputs "labor_cost_hourly" 100
             + field_Q inputs "cost_avoidance_annual" 0 / 12
             + field_Q inputs "revenue_impact_annual" 0 / 12) in *.
  assert (Hroi : exists roi, is_num (annual_roi_percentage r) roi /\ -100 <= roi).
  { destruct (Qlt_le_dec 0 IC) as [Hpos|Hle].
    - eexists. split; [apply Hroi1; assumption|].
      pose proof (Q.le_max_l IC (1 # 100)) as M1.
      pose proof (Q.le_max_r IC (1 # 100)) as M2.
      set (M := Qmax IC (1 # 100)) in *.
      assert (-1 <= (12 * MB - IC) / M) by (apply Qle_shift_div_l; lra).
      set (X := (12 * MB - IC) / M) in *. lra.
    - exists 0. rewrite (Hroi2 Hle). split; [apply is_num_int | lra]. }
  destruct Hroi as (roi & Hr1 & Hr2).
  exists MB, (MB * 12), IC, roi. repeat split; try assumption; try lra.
  destruct (payback_period_months r) as [p|]; [|exact I].
  destruct Hpb as [Hpos Hp]. eexists. split; [exact Hp|].
  pose proof (Q.le_max_r MB (1 # 100)) as M2.
  apply Qle_shift_div_l; lra.
Qed.

Lemma C10_outputs_nonnegative_within_bound_witness :
  returns (calculate_roi_with_inputs spec_example) (fun r =>
    no_overflow spec_example r /\
    exists mb ab ic roi,
      is_num (monthly_benefit r) mb /\ 0 <= mb /\
      is_num (annual_benefit r) ab /\ 0 <= ab /\
      is_num (implementation_cost r) ic /\ 0 <= ic /\
      match payback_period_months r with
      | Months p => exists q, is_num p q /\ 0 <= q
      | Infinite => True
      end /\
      is_num (annual_roi_percentage r) roi /\ -100 <= roi).
Proof.
  apply (C10_outputs_nonnegative_within_bound spec_example);
    [reflexivity | reflexivity | vm_compute; reflexivity].
Defined.

End EngineFacts.

(** ** The table under upsert, select and delete *)

Section Table.

Import Storage.

Lemma has_title_true title r : has_title title r = true <-> use_case_title r = title.
Proof. unfold has_title. apply String.eqb_eq. Qed.

Lemma has_title_false title r :
  has_title title r = false <-> use_case_title r <> title.
Proof. unfold has_title. apply String.eqb_neq. Qed.

Lemma existsb_has_title title rows :
  existsb (has_title title) rows = true <-> In title (titles rows).
Proof.
  unfold titles. rewrite existsb_exists, in_map_iff.
  split; intros (r & H1 & H2).
  - exists r. split; [apply has_title_true|]; assumption.
  - exists r. split; [|apply has_title_true]; assumption.
Qed.

Lemma titles_replace new rows :
  titles (map (fun r => if has_title (use_case_title new) r then new else r)
            rows) = titles rows.
Proof.
  unfold titles. induction rows as [|r rows IH]; simpl; [reflexivity|].
  rewrite IH. destruct (has_title (use_case_title new) r) eqn:E;
    [|reflexivity].
  apply has_title_true in E. rewrite E. reflexivity.
Qed.

Lemma titles_upsert new rows :
  titles (upsert new rows) =
  if existsb (has_title (use_case_title new)) rows
  then titles rows
  else (titles rows ++ [use_case_title new])%list.
Proof.
  unfold upsert. destruct (existsb _ rows).
  - apply titles_replace.
  - unfold titles. rewrite map_app. reflexivity.
Qed.

Lemma NoDup_snoc (x : string) (l : list string) :
  List.NoDup l -> ~ In x l -> List.NoDup (l ++ [x])%list.
Proof.
  induction l as [|y l IH]; simpl; intros Hn Hx.
  - constructor; [tauto | constructor].
  - inversion Hn as [|? ? Hy Hn']; subst. constructor.
    + rewrite in_app_iff. simpl. intros [H|[H|[]]]; [tauto|].
      apply Hx. left. congruence.
    + apply IH; tauto.
Qed.

Lemma upsert_unique new rows :
  List.NoDup (titles rows) -> List.NoDup (titles (upsert new rows)).
Proof.
  intros Hn. rewrite titles_upsert.
  destruct (existsb (has_title (use_case_title new)) rows) eqn:E;
    [assumption|].
  apply NoDup_snoc; [assumption|].
  intros Hin. apply existsb_has_title in Hin. congruence.
Qed.

Lemma select_one_upsert new rows :
  select_one (use_case_title new) (upsert new rows) = Some new.
Proof.
  unfold select_one, upsert.
  destruct (existsb (has_title (use_case_title new)) rows) eqn:E.
  - induction rows as [|r rows IH]; simpl in *; [discriminate|].
    destruct (has_title (use_case_title new) r) eqn:Er; simpl.
    + assert (Hn : has_title (use_case_title new) new = true)
        by (apply has_title_true; reflexivity).
      rewrite Hn. reflexivity.
    + rewrite Er. apply IH. assumption.
  - induction rows as [|r rows IH]; simpl in *.
    + assert (Hn : has_title (use_case_title new) new = true)
        by (apply has_title_true; reflexivity).
      rewrite Hn. reflexivity.
    + apply orb_false_iff in E as [Er E]. rewrite Er. apply IH. assumption.
Qed.

Lemma select_one_upsert_other title new rows :
  use_case_title new <> title ->
  select_one title (upsert new rows) = select_one title rows.
Proof.
  intros Hne. unfold select_one, upsert.
  assert (Hn : has_title title new = false) by (apply has_title_false; assumption).
  destruct (existsb (has_title (use_case_title new)) rows).
  - induction rows as [|r rows IH]; simpl; [reflexivity|].
    destruct (has_title (use_case_title new) r) eqn:Er.
    + rewrite Hn. apply has_title_true in Er.
      assert (Hr : has_title title r = false)
        by (apply has_title_false; congruence).
      rewrite Hr. assumption.
    + destruct (has_title title r); [reflexivity | assumption].
  - induction rows as [|r rows IH]; simpl.
    + rewrite Hn. reflexivity.
    + destruct (has_title title r); [reflexivity | assumption].
Qed.

Lemma filter_title_absent title rows :
  ~ In title (titles rows) -> List.filter (has_title title) rows = [].
Proof.
  induction rows as [|r rows IH]; simpl; [reflexivity|]. intros Hn.
  destruct (has_title title r) eqn:E.
  - apply has_title_true in E. tauto.
  - apply IH. tauto.
Qed.

(** With unique titles, the rows of one title are the selected row alone. *)
Lemma filter_title_unique title rows r :
  List.NoDup (titles rows) -> select_one title rows = Some r ->
  List.filter (has_title title) rows = [r].
Proof.
  unfold select_one. induction rows as [|r0 rows IH]; simpl; [discriminate|].
  intros Hn Hf. inversion Hn as [|t ts Hnotin Hn']; subst.
  destruct (has_title title r0) eqn:E.
  - injection Hf as ->. apply has_title_true in E. rewrite <- E in *.
    rewrite (filter_title_absent _ _ Hnotin). reflexivity.
  - apply IH; assumption.
Qed.

Lemma select_one_filtered title rows :
  select_one title (List.filter (fun r => negb (has_title title r)) rows) = None.
Proof.
  unfold select_one. induction rows as [|r rows IH]; simpl; [reflexivity|].
  destruct (has_title title r) eqn:E; simpl; [assumption|].
  rewrite E. assumption.
Qed.

Lemma titles_filtered_unique title rows :
  List.NoDup (titles rows) ->
  List.NoDup (titles (List.filter (fun r => negb (has_title title r)) rows)).
Proof.
  unfold titles. induction rows as [|r rows IH]; simpl; [auto|].
  intros Hn. inversion Hn as [|t ts Hnotin Hn']; subst.
  destruct (negb (has_title title r)); simpl; [|auto].
  constructor; [|auto]. intros Hin. apply Hnotin.
  apply in_map_iff in Hin as (r' & E & Hin). apply in_map_iff.
  exists r'. split; [assumption|]. apply filter_In in Hin. tauto.
Qed.

Lemma filter_split_length title rows :
  (length (List.filter (fun r => negb (has_title title r)) rows)
   + length (List.filter (has_title title) rows) = length rows)%nat.
Proof.
  induction rows as [|r rows IH]; simpl; [reflexivity|].
  destruct (has_title title r); simpl; lia.
Qed.

Lemma filter_title_length title rows :
  (0 < length (List.filter (has_title title) rows))%nat <-> In title (titles rows).
Proof.
  rewrite <- existsb_has_title.
  induction rows as [|r rows IH]; simpl.
  - split; [lia | discriminate].
  - destruct (has_title title r); simpl; [split; [reflexivity | lia] | exact IH].
Qed.

End Table.

(** ** Properties of the store operations *)

Section StoreFacts.

Import Storage.

Variable str_to_float : string -> option Q.
Variable str_to_int : string -> option Z.

Local Abbreviation save_parameters := (save_parameters str_to_float str_to_int).
Local Abbreviation save_roi_inputs := (save_roi_inputs str_to_float str_to_int).
Local Abbreviation reachable := (reachable str_to_float str_to_int).
Local Abbreviation float := (py_float str_to_float).
Local Abbreviation int := (py_int str_to_int).

Lemma bind_Ok {A B : Type} (m : except A) (k : A -> except B) (b : B) :
  bind m k = Ok b -> exists a, m = Ok a /\ k a = Ok b.
Proof. destruct m; simpl; [eauto | discriminate]. Qed.

Lemma save_parameters_inv now title inputs unit_name row :
  save_parameters now title inputs unit_name = Ok row ->
  use_case_title row = title /\
  business_unit row = stored_unit unit_name /\
  float (dict_get_default inputs "labor_impact_hours" (VInt 0))
    = Ok (labor_impact_hours row) /\
  float (dict_get_default inputs "labor_cost_hourly" (VInt 100))
    = Ok (labor_cost_hourly row) /\
  float (dict_get_default inputs "cost_avoidance_annual" (VInt 0))
    = Ok (cost_avoidance_annual row) /\
  float (dict_get_default inputs "revenue_impact_annual" (VInt 0))
    = Ok (revenue_impact_annual row) /\
  int (dict_get_default inputs "risk_mitigation_score" (VInt 3))
    = Ok (risk_mitigation_score row) /\
  int (dict_get_default inputs "customer_reach_score" (VInt 3))
    = Ok (customer_reach_score row) /\
  float (dict_get_default inputs "time_to_value_hours" (VInt 0))
    = Ok (time_to_value_hours row) /\
  float (dict_get_default inputs "implementation_cost_hourly" (VInt 100))
    = Ok (implementation_cost_hourly row) /\
  int (dict_get_default inputs "confidence_level" (VInt 3))
    = Ok (confidence_level row) /\
  updated_at row = now.
Proof.
  unfold Storage.save_parameters. intros H.
  repeat (apply bind_Ok in H as (? & ? & H)).
  injection H as <-. simpl. repeat split; assumption.
Qed.

(** A second evaluation of the parameters differs in the timestamp only. *)
Lemma save_parameters_again now now' title inputs unit_name row :
  save_parameters now title inputs unit_name = Ok row ->
  save_parameters now' title inputs unit_name =
  Ok {| use_case_title := use_case_title row;
        business_unit := business_unit row;
        labor_impact_hours := labor_impact_hours row;
        labor_cost_hourly := labor_cost_hourly row;
        cost_avoidance_annual := cost_avoidance_annual row;
        revenue_impact_annual := revenue_impact_annual row;
        risk_mitigation_score := risk_mitigation_score row;
        customer_reach_score := customer_reach_score row;
        time_to_value_hours := time_to_value_hours row;
        implementation_cost_hourly := implementation_cost_hourly row;
        confidence_level := confidence_level row;
        updated_at := now' |}.
Proof.
  intros H. apply save_parameters_inv in H.
  destruct H as (<- & -> & H1 & H2 & H3 & H4 & H5 & H6 & H7 & H8 & H9 & _).
  unfold Storage.save_parameters.
  rewrite H1, H2, H3, H4, H5, H6, H7, H8, H9. reflexivity.
Qed.

Lemma save_true self now title inputs unit_name self' :
  save_roi_inputs self now title inputs unit_name = (true, self') ->
  connection self = Some Open /\
  exists row,
    save_parameters now title inputs unit_name = Ok row /\
    self' = {| connection := Some Open;
               roi_inputs := upsert row (roi_inputs self) |}.
Proof.
  unfold Storage.save_roi_inputs.
  destruct (connection self) as [[|]|]; simpl; try discriminate.
  destruct (save_parameters now title inputs unit_name) as [row|];
    simpl; [|discriminate].
  intros [= <-]. split; [reflexivity|]. exists row. split; reflexivity.
Qed.

Lemma save_open self now title inputs unit_name row :
  connection self = Some Open ->
  save_parameters now title inputs unit_name = Ok row ->
  save_roi_inputs self now title inputs unit_name =
  (true, {| connection := Some Open;
            roi_inputs := upsert row (roi_inputs self) |}).
Proof.
  unfold Storage.save_roi_inputs. intros -> ->. reflexivity.
Qed.

Lemma save_table self now title inputs unit_name :
  roi_inputs (snd (save_roi_inputs self now title inputs unit_name))
    = roi_inputs self \/
  exists row,
    roi_inputs (snd (save_roi_inputs self now title inputs unit_name))
      = upsert row (roi_inputs self).
Proof.
  unfold Storage.save_roi_inputs.
  destruct (connection self) as [[|]|]; simpl; auto.
  destruct (save_parameters now title inputs unit_name) as [row|];
    simpl; eauto.
Qed.

Lemma delete_table self title :
  roi_inputs (snd (delete_roi_inputs self title)) = roi_inputs self \/
  roi_inputs (snd (delete_roi_inputs self title))
    = List.filter (fun r => negb (has_title title r)) (roi_inputs self).
Proof.
  unfold delete_roi_inputs.
  destruct (connection self) as [[|]|]; simpl; auto.
Qed.

Lemma step_unique self self' :
  step str_to_float str_to_int self self' ->
  List.NoDup (titles (roi_inputs self)) ->
  List.NoDup (titles (roi_inputs self')).
Proof.
  intros Hs Hn. destruct Hs.
  - destruct (save_table self now title inputs unit_name) as [->|(row & ->)];
      [assumption | apply upsert_unique; assumption].
  - destruct (delete_table self title) as [->| ->];
      [assumption | apply titles_filtered_unique; assumption].
  - unfold close. destruct (connection self); assumption.
  - assumption.
Qed.

Lemma reachable_unique self :
  reachable self -> List.NoDup (titles (roi_inputs self)).
Proof.
  induction 1 as [|self self' _ IH Hs].
  - constructor.
  - eapply step_unique; eassumption.
Qed.

Lemma load_open self title :
  connection self = Some Open ->
  load_roi_inputs self title =
  match select_one title (roi_inputs self) with
  | Some result => Some (row_dict result)
  | None => None
  end.
Proof. unfold load_roi_inputs. intros ->. reflexivity. Qed.

Lemma float_round_trip v q :
  is_number v = true -> float v = Ok q -> py_eq (VFloat q) v = true.
Proof.
  destruct v; simpl; try discriminate; intros _ [= <-];
    unfold py_eq; simpl; apply Qeq_bool_iff; reflexivity.
Qed.

Lemma exact_is_number v : exact_as_float v = true -> is_number v = true.
Proof. destruct v; simpl; auto. Qed.

(** C3 (amended).  After a save that returns true on a connected store, load
    of the same title returns a record in which each of the six amount and
    rate fields equals the number written when that is a float or an [int]
    of magnitude at most 2^53 (the numbers [float] converts without
    rounding), each of the three scores equals the integer written, and
    which has no [business_unit] and no [use_case_title] entry; the unit
    name is held in the stored row. *)
Theorem C3_round_trip_of_nine_fields self now title inputs unit_name self' :
  connection self = Some Open ->
  save_roi_inputs self now title inputs unit_name = (true, self') ->
  exists row loaded,
    select_one title (roi_inputs self') = Some row /\
    use_case_title row = title /\
    business_unit row = stored_unit unit_name /\
    load_roi_inputs self' title = Some loaded /\
    (forall k v, In k float_fields -> inputs !! k = Some v ->
       exact_as_float v = true ->
       exists w, loaded !! k = Some w /\ py_eq w v = true) /\
    (forall k z, In k score_fields -> inputs !! k = Some (VInt z) ->
       loaded !! k = Some (VInt z)) /\
    loaded !! "business_unit" = None /\
    loaded !! "use_case_title" = None.
Proof.
  intros Hc Hs. apply save_true in Hs as (_ & row & Hp & ->).
  pose proof (save_parameters_inv _ _ _ _ _ Hp)
    as (Ht & Hu & H1 & H2 & H3 & H4 & H5 & H6 & H7 & H8 & H9 & _).
  exists row, (row_dict row). simpl roi_inputs.
  assert (Hsel : select_one title (upsert row (roi_inputs self)) = Some row)
    by (rewrite <- Ht; apply select_one_upsert).
  repeat split; try assumption.
  - rewrite load_open by reflexivity. simpl roi_inputs. rewrite Hsel.
    reflexivity.
  - intros k v Hk Hv Hnum. unfold dict_get_default in *.
    simpl in Hk.
    destruct Hk as [<-|[<-|[<-|[<-|[<-|[<-|[]]]]]]]; rewrite Hv in *;
      eexists; (split; [reflexivity|]);
      (apply float_round_trip; [apply exact_is_number|]; assumption).
  - intros k z Hk Hv. unfold dict_get_default in *. simpl in Hk.
    destruct Hk as [<-|[<-|[<-|[]]]]; rewrite Hv in *; simpl in *;
      match goal with H : Ok z = Ok _ |- _ => injection H as -> end;
      reflexivity.
Qed.

(** C5.  Every reachable store has at most one row per title; a successful
    save leaves exactly one row for its title, made of the values just
    written and stamped [now], and touches no other title; saving the same
    title and fields again, not earlier, succeeds and again leaves exactly
    one row, the same but for a timestamp that has not decreased. *)
Theorem C5_one_row_per_title self :
  reachable self ->
  List.NoDup (titles (roi_inputs self)) /\
  forall now title inputs unit_name self1,
    save_roi_inputs self now title inputs unit_name = (true, self1) ->
    exists row1,
      save_parameters now title inputs unit_name = Ok row1 /\
      updated_at row1 = now /\
      List.filter (has_title title) (roi_inputs self1) = [row1] /\
      (forall other, other <> title ->
         select_one other (roi_inputs self1)
           = select_one other (roi_inputs self)) /\
      forall now2, (now <= now2)%Z ->
        exists self2 row2,
          save_roi_inputs self1 now2 title inputs unit_name = (true, self2) /\
          save_parameters now2 title inputs unit_name = Ok row2 /\
          List.filter (has_title title) (roi_inputs self2) = [row2] /\
          (updated_at row1 <= updated_at row2)%Z.
Proof.
  intros Hr. pose proof (reachable_unique self Hr) as Hn.
  split; [assumption|].
  intros now title inputs unit_name self1 Hs.
  apply save_true in Hs as (Hc & row1 & Hp & ->).
  pose proof (save_parameters_inv _ _ _ _ _ Hp) as (Ht & _).
  assert (Hnow : updated_at row1 = now)
    by (apply save_parameters_inv in Hp; tauto).
  exists row1. simpl roi_inputs. repeat split; try assumption.
  - apply filter_title_unique; [apply upsert_unique; assumption|].
    rewrite <- Ht. apply select_one_upsert.
  - intros other Ho. apply select_one_upsert_other. congruence.
  - intros now2 Hle.
    pose proof (save_parameters_again now now2 _ _ _ _ Hp) as Hp2.
    eexists _, _. split; [|split; [exact Hp2|split]].
    + apply save_open; [reflexivity | exact Hp2].
    + simpl roi_inputs. apply filter_title_unique.
      * repeat apply upsert_unique; assumption.
      * rewrite <- Ht.
        apply (select_one_upsert
                 {| use_case_title := use_case_title row1;
                    business_unit := business_unit row1;
                    labor_impact_hours := labor_impact_hours row1;
                    labor_cost_hourly := labor_cost_hourly row1;
                    cost_avoidance_annual := cost_avoidance_annual row1;
                    revenue_impact_annual := revenue_impact_annual row1;
                    risk_mitigation_score := risk_mitigation_score row1;
                    customer_reach_score := customer_reach_score row1;
                    time_to_value_hours := time_to_value_hours row1;
                    implementation_cost_hourly :=
                      implementation_cost_hourly row1;
                    confidence_level := confidence_level row1;
                    updated_at := now2 |}).
    + simpl. lia.
Qed.

(** C8.  Deleting a title with no row returns false; delete returns true
    exactly when the table lost a row (on a connected store, exactly when a
    row of that title was stored); after a delete that returned true no row
    of the title is left and load of it returns [None]. *)
Theorem C8_delete_then_load self title :
  (~ In title (titles (roi_inputs self)) ->
   fst (delete_roi_inputs self title) = false /\
   roi_inputs (snd (delete_roi_inputs self title)) = roi_inputs self) /\
  (fst (delete_roi_inputs self title) = true <->
   (length (roi_inputs (snd (delete_roi_inputs self title)))
    < length (roi_inputs self))%nat) /\
  (connection self = Some Open ->
   (fst (delete_roi_inputs self title) = true <->
    In title (titles (roi_inputs self)))) /\
  (fst (delete_roi_inputs self title) = true ->
   ~ In title (titles (roi_inputs (snd (delete_roi_inputs self title)))) /\
   load_roi_inputs (snd (delete_roi_inputs self title)) title = None).
Proof.
  pose proof (filter_split_length title (roi_inputs self)) as Hlen.
  pose proof (filter_title_length title (roi_inputs self)) as Hin.
  unfold delete_roi_inputs, load_roi_inputs.
  destruct (connection self) as [[|]|] eqn:Hc; simpl;
    try (repeat split; try discriminate; try lia; auto; fail).
  rewrite Nat.ltb_lt. split; [|split; [|split]].
  - intros Hno.
    assert (E : List.filter (has_title title) (roi_inputs self) = [])
      by (apply filter_title_absent; assumption).
    split.
    + apply Nat.ltb_ge. rewrite E. simpl. lia.
    + clear Hlen Hin Hno. induction (roi_inputs self) as [|r rows IH];
        simpl in *; [reflexivity|].
      destruct (has_title title r) eqn:Er; simpl in *; [discriminate|].
      f_equal. apply IH; assumption.
  - lia.
  - intros _. exact Hin.
  - intros _. split.
    + intros Hin'. unfold titles in Hin'.
      apply in_map_iff in Hin' as (r & Er & Hr).
      apply filter_In in Hr as [_ Hr]. apply negb_true_iff in Hr.
      apply has_title_false in Hr. contradiction.
    + rewrite select_one_filtered. reflexivity.
Qed.

(** C9.  On a connected store a save with the empty mapping and no business
    unit returns true and stores the default row: amounts 0, hourly rates
    100, scores 3, unit 'Unknown'.  More generally every field absent from
    the mapping is stored as its default. *)
Theorem C9_missing_fields_defaulted self now title :
  connection self = Some Open ->
  (exists self',
     save_roi_inputs self now title ∅ None = (true, self') /\
     select_one title (roi_inputs self') = Some (default_row now title)) /\
  forall inputs unit_name row,
    save_parameters now title inputs unit_name = Ok row ->
    (inputs !! "labor_impact_hours" = None -> labor_impact_hours row = 0%Q) /\
    (inputs !! "cost_avoidance_annual" = None ->
     cost_avoidance_annual row = 0%Q) /\
    (inputs !! "revenue_impact_annual" = None ->
     revenue_impact_annual row = 0%Q) /\
    (inputs !! "time_to_value_hours" = None ->
     time_to_value_hours row = 0%Q) /\
    (inputs !! "labor_cost_hourly" = None -> labor_cost_hourly row = 100%Q) /\
    (inputs !! "implementation_cost_hourly" = None ->
     implementation_cost_hourly row = 100%Q) /\
    (inputs !! "risk_mitigation_score" = None ->
     risk_mitigation_score row = 3%Z) /\
    (inputs !! "customer_reach_score" = None ->
     customer_reach_score row = 3%Z) /\
    (inputs !! "confidence_level" = None -> confidence_level row = 3%Z) /\
    (unit_name = None -> business_unit row = "Unknown").
Proof.
  intros Hc. split.
  - eexists. split.
    + apply save_open; [assumption | reflexivity].
    + simpl roi_inputs.
      apply (select_one_upsert (default_row now title)).
  - intros inputs unit_name row Hp.
    apply save_parameters_inv in Hp
      as (_ & Hu & H1 & H2 & H3 & H4 & H5 & H6 & H7 & H8 & H9 & _).
    unfold dict_get_default in *.
    repeat split; intros E; try rewrite E in *; simpl in *;
      first
        [ exact Hu
        | congruence
        | match goal with
          | H : Ok (inject_Z _) = Ok _ |- _ => injection H as <-; reflexivity
          end ].
Qed.

End StoreFacts.

Section StoreExamples.

Import Storage.

(** C3 (counterexample).  A record saved with business unit "Sales" is
    loaded back as a dictionary of nine entries that has neither a
    [business_unit] nor a [use_case_title] entry. *)
Lemma C3_counterexample :
  save_roi_inputs no_number no_number (connect []) 5 "A" spec_example
    (Some "Sales") = (true, one_saved) /\
  exists loaded,
    load_roi_inputs one_saved "A" = Some loaded /\
    size loaded = 9%nat /\
    loaded !! "business_unit" = None /\
    loaded !! "use_case_title" = None.
Proof.
  split; [reflexivity|]. eexists. split; [reflexivity|].
  repeat split; vm_compute; reflexivity.
Qed.

Lemma C3_round_trip_of_nine_fields_witness :
  exists row loaded,
    select_one "A" (roi_inputs one_saved) = Some row /\
    use_case_title row = "A" /\
    business_unit row = stored_unit (Some "Sales") /\
    load_roi_inputs one_saved "A" = Some loaded /\
    (forall k v, In k float_fields -> spec_example !! k = Some v ->
       exact_as_float v = true ->
       exists w, loaded !! k = Some w /\ py_eq w v = true) /\
    (forall k z, In k score_fields -> spec_example !! k = Some (VInt z) ->
       loaded !! k = Some (VInt z)) /\
    loaded !! "business_unit" = None /\
    loaded !! "use_case_title" = None.
Proof.
  apply (C3_round_trip_of_nine_fields no_number no_number (connect []) 5 "A"
           spec_example (Some "Sales") one_saved); reflexivity.
Defined.

Lemma one_saved_reachable : reachable no_number no_number one_saved.
Proof.
  eapply reachable_step; [apply reachable_connect|].
  apply step_save.
Qed.

Lemma C5_one_row_per_title_witness :
  reachable no_number no_number one_saved /\
  List.NoDup (titles (roi_inputs one_saved)) /\
  exists self1 row1,
    save_roi_inputs no_number no_number one_saved 7 "A" spec_example
      (Some "Sales") = (true, self1) /\
    List.filter (has_title "A") (roi_inputs self1) = [row1] /\
    updated_at row1 = 7%Z.
Proof.
  split; [exact one_saved_reachable|].
  destruct (C5_one_row_per_title no_number no_number one_saved
              one_saved_reachable) as [Hn Hsave].
  split; [exact Hn|].
  destruct (Hsave 7%Z "A" spec_example (Some "Sales") _ eq_refl)
    as (row1 & _ & H2 & H3 & _).
  eexists _, row1. repeat split; assumption.
Defined.

Lemma C8_delete_then_load_witness :
  connection one_saved = Some Open /\
  In "A" (titles (roi_inputs one_saved)) /\
  fst (delete_roi_inputs one_saved "A") = true /\
  load_roi_inputs (snd (delete_roi_inputs one_saved "A")) "A" = None.
Proof.
  assert (Hc : connection one_saved = Some Open) by reflexivity.
  assert (Hin : In "A" (titles (roi_inputs one_saved)))
    by (left; reflexivity).
  destruct (C8_delete_then_load one_saved "A") as (_ & _ & H3 & H4).
  assert (Hd : fst (delete_roi_inputs one_saved "A") = true)
    by (apply (H3 Hc); exact Hin).
  exact (conj Hc (conj Hin (conj Hd (proj2 (H4 Hd))))).
Defined.

Lemma C9_missing_fields_defaulted_witness :
  connection (connect []) = Some Open /\
  exists self',
    save_roi_inputs no_number no_number (connect []) 5 "A" ∅ None
      = (true, self') /\
    select_one "A" (roi_inputs self') = Some (default_row 5 "A").
Proof.
  split; [reflexivity|].
  apply (C9_missing_fields_defaulted no_number no_number (connect []) 5 "A").
  reflexivity.
Defined.

End StoreExamples.

(** ** Properties of the summary loop *)

Section SummaryFacts.

Import Aggregator.

Lemma zero_or_null_excluded inputs k :
  zero_or_null inputs k = true ->
  py_in (dict_get inputs k) [VNone; VInt 0; VStr ""] = true.
Proof.
  unfold zero_or_null, dict_get.
  destruct (inputs !! k) as [[|z|q|s]|]; simpl; try discriminate;
    try reflexivity; intros H.
  - unfold py_eq; simpl. change (inject_Z 0) with 0%Q. rewrite H.
    reflexivity.
  - unfold py_eq; simpl. change (inject_Z 0) with 0%Q. rewrite H.
    reflexivity.
Qed.

Lemma no_data inputs :
  forallb (zero_or_null inputs) key_fields = true -> has_data inputs = false.
Proof.
  unfold has_data, key_fields. cbn [forallb existsb].
  rewrite !andb_true_iff. intros (H1 & H2 & H3 & _).
  rewrite !zero_or_null_excluded by assumption. reflexivity.
Qed.

Lemma summarize_app before after acc :
  summarize (before ++ after) acc =
  bind (summarize before acc) (summarize after).
Proof.
  revert acc. induction before as [|[title inputs] before IH]; intros acc;
    simpl; [reflexivity|].
  destruct (summarize_case title inputs acc) as [acc'|e]; simpl;
    [apply IH | reflexivity].
Qed.

(** C7.  A record whose three key fields are each absent, [None] or zero
    leaves the totals and the summary rows as they were, whatever its
    [time_to_value_hours]; the summary of a portfolio is that of the
    portfolio without the record. *)
Theorem C7_record_without_data_skipped before title inputs after acc :
  forallb (zero_or_null inputs) key_fields = true ->
  summarize_case title inputs acc = Ok acc /\
  summarize (before ++ (title, inputs) :: after) acc =
  summarize (before ++ after) acc.
Proof.
  intros Hz. apply no_data in Hz.
  assert (Hcase : forall a, summarize_case title inputs a = Ok a)
    by (intros a; unfold summarize_case; rewrite Hz; reflexivity).
  split; [apply Hcase|].
  rewrite !summarize_app.
  destruct (summarize before acc) as [acc'|e]; simpl; [|reflexivity].
  rewrite Hcase. reflexivity.
Qed.

Lemma C7_record_without_data_skipped_witness :
  forallb (zero_or_null effort_only) key_fields = true /\
  summarize_case "B" effort_only empty_summary = Ok empty_summary /\
  summarize ([("A", spec_example)] ++ ("B", effort_only) :: []) empty_summary
  = summarize ([("A", spec_example)] ++ []) empty_summary.
Proof.
  split; [reflexivity|].
  apply (C7_record_without_data_skipped [("A", spec_example)] "B" effort_only
           [] empty_summary).
  reflexivity.
Defined.

End SummaryFacts.

(** ** More on the formula engine *)

Section EngineExtras.

Local Open Scope Q_scope.

(** The calculator sees its input only through [inputs.get(k) or d] on the
    eight fields it reads. *)
Lemma calculate_ext (inputs1 inputs2 : gmap string value) :
  (forall k, In k calculator_fields ->
     forall d, py_or (dict_get inputs1 k) d = py_or (dict_get inputs2 k) d) ->
  calculate_roi_with_inputs inputs1 = calculate_roi_with_inputs inputs2.
Proof.
  intros H.
  assert (E1 := H "labor_impact_hours" ltac:(simpl; tauto)).
  assert (E2 := H "labor_cost_hourly" ltac:(simpl; tauto)).
  assert (E3 := H "cost_avoidance_annual" ltac:(simpl; tauto)).
  assert (E4 := H "revenue_impact_annual" ltac:(simpl; tauto)).
  assert (E5 := H "time_to_value_hours" ltac:(simpl; tauto)).
  assert (E6 := H "confidence_level" ltac:(simpl; tauto)).
  assert (E7 := H "risk_mitigation_score" ltac:(simpl; tauto)).
  assert (E8 := H "customer_reach_score" ltac:(simpl; tauto)).
  unfold calculate_roi_with_inputs.
  rewrite !E1, !E2, !E3, !E4, !E5, !E6, !E7, !E8. reflexivity.
Qed.

(** X1.  A field holding a false value ([None], [0], [0.0] or the empty
    string) counts exactly as an absent field; so an hourly rate of 0 is
    replaced by the blended rate, like a missing one. *)
Theorem X1_false_value_counts_as_absent (inputs : gmap string value)
    (k : string) (v : value) :
  truthy v = false ->
  calculate_roi_with_inputs (<[k := v]> inputs)
  = calculate_roi_with_inputs (delete k inputs).
Proof.
  intros Hv. apply calculate_ext. intros k' _ d. unfold dict_get.
  destruct (decide (k = k')) as [<-|Hne].
  - rewrite lookup_insert_eq, lookup_delete_eq. unfold py_or.
    rewrite Hv. reflexivity.
  - rewrite lookup_insert_ne, lookup_delete_ne by assumption. reflexivity.
Qed.

Lemma X1_false_value_counts_as_absent_witness :
  truthy (VFloat 0) = false /\
  calculate_roi_with_inputs (<["labor_cost_hourly" := VFloat 0]> hours_only)
  = calculate_roi_with_inputs (delete "labor_cost_hourly" hours_only).
Proof.
  split; [reflexivity|].
  apply (X1_false_value_counts_as_absent hours_only "labor_cost_hourly"
           (VFloat 0)).
  reflexivity.
Defined.

(** X2.  A key outside the eight the calculator reads has no effect on the
    result, whatever its value; [implementation_cost_hourly] is such a
    key. *)
Theorem X2_unread_key_ignored (inputs : gmap string value) (k : string)
    (v : value) :
  ~ In k calculator_fields ->
  calculate_roi_with_inputs (<[k := v]> inputs)
  = calculate_roi_with_inputs inputs.
Proof.
  intros Hk. apply calculate_ext. intros k' Hk' d. unfold dict_get.
  rewrite lookup_insert_ne; [reflexivity|]. intros ->. contradiction.
Qed.

Lemma X2_unread_key_ignored_witness :
  ~ In "implementation_cost_hourly" calculator_fields /\
  calculate_roi_with_inputs
    (<["implementation_cost_hourly" := VInt 250]> spec_example)
  = calculate_roi_with_inputs spec_example.
Proof.
  assert (H : ~ In "implementation_cost_hourly" calculator_fields).
  { simpl. intros [E|[E|[E|[E|[E|[E|[E|[E|[]]]]]]]]]; discriminate E. }
  split; [exact H|].
  apply (X2_unread_key_ignored spec_example "implementation_cost_hourly"
           (VInt 250) H).
Defined.

Lemma py_div_inv a b v :
  py_div a b = Ok v ->
  exists x y, as_Q a = Some x /\ as_Q b = Some y /\ v = VFloat (x / y).
Proof.
  unfold py_div. destruct (as_Q a) as [x|]; [|discriminate].
  destruct (as_Q b) as [y|]; [|discriminate].
  destruct (Qeq_bool y 0); [discriminate|]. intros [= <-]. eauto.
Qed.

Lemma py_add_float_inv a q s :
  py_add a (VFloat q) = Ok s ->
  exists x, is_num a x /\ is_num s (x + q).
Proof.
  destruct a; simpl; try discriminate; intros [= <-]; eexists;
    (split; [first [apply is_num_int | apply is_num_float]
            | apply is_num_float]).
Qed.

Lemma returns_eq {A : Type} (m : except A) (a : A) (P : A -> Prop) :
  returns m P -> m = Ok a -> P a.
Proof. intros H E. rewrite E in H. exact H. Qed.

(** The steps of a successful run that build the benefit figures. *)
Lemma calculate_benefit_steps inputs r :
  calculate_roi_with_inputs inputs = Ok r ->
  exists s,
    py_div (py_or (dict_get inputs "cost_avoidance_annual") (VInt 0))
      (VInt 12) = Ok (cost_avoidance_monthly r) /\
    py_div (py_or (dict_get inputs "revenue_impact_annual") (VInt 0))
      (VInt 12) = Ok (revenue_monthly r) /\
    py_add (labor_savings_monthly r) (cost_avoidance_monthly r) = Ok s /\
    py_add s (revenue_monthly r) = Ok (monthly_benefit r) /\
    py_mul (monthly_benefit r) (VInt 12) = Ok (annual_benefit r).
Proof.
  unfold calculate_roi_with_inputs. intros H.
  repeat (apply bind_Ok in H as (? & ? & H)).
  injection H as <-. cbn [cost_avoidance_monthly revenue_monthly
    labor_savings_monthly monthly_benefit annual_benefit].
  repeat match goal with
  | H1 : ?e = Ok ?a, H2 : ?e = Ok ?b |- _ =>
      rewrite H1 in H2; injection H2 as <-
  end.
  eexists. repeat split; eassumption.
Qed.

(** X3.  Whenever the calculator returns, its three monthly figures are
    numbers, the monthly benefit is their sum and the annual benefit is
    twelve times the monthly benefit. *)
Theorem X3_benefit_is_sum_of_breakdown (inputs : gmap string value)
    (r : ROIResult) :
  calculate_roi_with_inputs inputs = Ok r ->
  exists labor avoided revenue,
    is_num (labor_savings_monthly r) labor /\
    is_num (cost_avoidance_monthly r) avoided /\
    is_num (revenue_monthly r) revenue /\
    is_num (monthly_benefit r) (labor + avoided + revenue) /\
    is_num (annual_benefit r) ((labor + avoided + revenue) * 12).
Proof.
  intros H. apply calculate_benefit_steps in H
    as (s & Hc & Hr & Hs & Hm & Ha).
  apply py_div_inv in Hc as (c1 & c2 & _ & _ & Hc).
  apply py_div_inv in Hr as (r1 & r2 & _ & _ & Hr).
  rewrite Hc in Hs. rewrite Hr in Hm.
  apply py_add_float_inv in Hs as (labor & Hl & Hs).
  apply py_add_float_inv in Hm as (x & Hx & Hm).
  pose proof (is_num_inj _ _ _ Hx Hs) as Ex.
  exists labor, (c1 / c2), (r1 / r2).
  assert (Hmb : is_num (monthly_benefit r) (labor + c1 / c2 + r1 / r2))
    by (apply (is_num_eq _ _ _ Hm); rewrite Ex; reflexivity).
  repeat split.
  - exact Hl.
  - rewrite Hc. apply is_num_float.
  - rewrite Hr. apply is_num_float.
  - exact Hmb.
  - apply (returns_eq _ _ _ (py_mul_num _ _ _ _ Hmb (is_num_int 12)) Ha).
Qed.

Lemma X3_benefit_is_sum_of_breakdown_witness :
  exists r,
    calculate_roi_with_inputs spec_example = Ok r /\
    exists labor avoided revenue,
      is_num (labor_savings_monthly r) labor /\
      is_num (cost_avoidance_monthly r) avoided /\
      is_num (revenue_monthly r) revenue /\
      is_num (monthly_benefit r) (labor + avoided + revenue) /\
      is_num (annual_benefit r) ((labor + avoided + revenue) * 12).
Proof.
  eexists. split; [reflexivity|].
  apply (X3_benefit_is_sum_of_breakdown spec_example). reflexivity.
Defined.

Lemma float_numeric inputs k :
  float_or_missing inputs k = true -> numeric_or_missing inputs k = true.
Proof.
  unfold float_or_missing, numeric_or_missing.
  destruct (inputs !! k) as [[| | |]|]; simpl; auto.
Qed.

Lemma entered_numeric inputs :
  entered_record inputs = true -> numeric_inputs inputs = true.
Proof.
  unfold entered_record, numeric_inputs, amount_fields, score_fields,
    calculator_fields. cbn [forallb]. rewrite !andb_true_iff.
  intros (((A1 & A2 & A3 & A4 & A5 & _) & S1 & S2 & S3 & _) & _).
  repeat split; auto using float_numeric.
Qed.

Lemma entered_bounded inputs :
  entered_record inputs = true -> bounded_inputs inputs = true.
Proof.
  unfold entered_record. rewrite !andb_true_iff. tauto.
Qed.

Lemma sign_of_quotient x m : 0 < m -> (0 <= x / m <-> 0 <= x).
Proof.
  intros Hm. split; intros H.
  - assert (E : x == x / m * m) by (field; lra).
    rewrite E. apply Qmult_le_0_compat; lra.
  - apply Qle_shift_div_l; lra.
Qed.

(** X4.  Break-even.  For a record as the input form builds it (the amounts
    floats, every number within the bound) with a positive implementation
    cost, the annual ROI is non-negative exactly when the annual benefit
    covers the cost. *)
Theorem X4_break_even (inputs : gmap string value) :
  entered_record inputs = true ->
  returns (calculate_roi_with_inputs inputs) (fun r =>
    no_overflow inputs r /\
    forall ab ic roi,
      is_num (annual_benefit r) ab -> is_num (implementation_cost r) ic ->
      is_num (annual_roi_percentage r) roi -> 0 < ic ->
      (0 <= roi <-> ic <= ab)).
Proof.
  intros He. pose proof (entered_numeric inputs He) as Hn.
  pose proof (entered_bounded inputs He) as Hb.
  apply returns_and; [apply (calculate_no_overflow inputs Hn Hb)|].
  eapply returns_mono; [apply (calculate_numeric inputs Hn)|].
  cbv beta. intros r (Hmb & Hab & Hic & Hpb & Hroi & _).
  intros ab ic roi Hab' Hic' Hroi' Hpos.
  pose proof (is_num_inj _ _ _ Hab Hab') as Eab.
  pose proof (is_num_inj _ _ _ Hic Hic') as Eic.
  match type of Eic with ?X == _ => set (IC := X) in * end.
  match type of Hmb with is_num _ ?X => set (MB := X) in * end.
  assert (HIC : 0 < IC) by (rewrite Eic; assumption).
  pose proof (is_num_inj _ _ _ (Hroi HIC) Hroi') as Eroi.
  pose proof (Q.le_max_r IC (1 # 100)) as M2.
  set (M := Qmax IC (1 # 100)) in *.
  rewrite <- Eroi, <- Eab, <- Eic.
  pose proof (sign_of_quotient (12 * MB - IC) M ltac:(lra)) as Hs.
  set (X := (12 * MB - IC) / M) in *. split; intros H.
  - assert (0 <= X) by lra. apply Hs in H0. lra.
  - assert (0 <= X) by (apply Hs; lra). lra.
Qed.

Lemma X4_break_even_witness :
  returns (calculate_roi_with_inputs entered_example) (fun r =>
    no_overflow entered_example r /\
    forall ab ic roi,
      is_num (annual_benefit r) ab -> is_num (implementation_cost r) ic ->
      is_num (annual_roi_percentage r) roi -> 0 < ic ->
      (0 <= roi <-> ic <= ab)).
Proof.
  apply (X4_break_even entered_example). vm_compute. reflexivity.
Defined.

End EngineExtras.

(** ** Ordered dictionaries: lookup after assignment and update *)

Section DictFacts.

Context {V : Type}.

Implicit Types (d other : Dict.t V) (k : string) (v : V).

Lemma has_key_true k (kv : string * V) :
  Dict.has_key k kv = true <-> fst kv = k.
Proof. unfold Dict.has_key. apply String.eqb_eq. Qed.

Lemma has_key_false k (kv : string * V) :
  Dict.has_key k kv = false <-> fst kv <> k.
Proof. unfold Dict.has_key. apply String.eqb_neq. Qed.

Lemma get_set_eq k v d : Dict.get k (Dict.set k v d) = Some v.
Proof.
  unfold Dict.get. induction d as [|kv d IH]; simpl.
  - assert (E : Dict.has_key k (k, v) = true) by (apply has_key_true; reflexivity).
    rewrite E. reflexivity.
  - destruct (Dict.has_key k kv) eqn:E; simpl.
    + assert (E' : Dict.has_key k (fst kv, v) = true)
        by (apply has_key_true; apply has_key_true in E; exact E).
      rewrite E'. reflexivity.
    + rewrite E. exact IH.
Qed.

Lemma get_set_ne k k' v d :
  k <> k' -> Dict.get k' (Dict.set k v d) = Dict.get k' d.
Proof.
  intros Hne. unfold Dict.get. induction d as [|kv d IH]; simpl.
  - assert (E : Dict.has_key k' (k, v) = false)
      by (apply has_key_false; exact Hne).
    rewrite E. reflexivity.
  - destruct (Dict.has_key k kv) eqn:E; simpl.
    + apply has_key_true in E.
      assert (E1 : Dict.has_key k' (fst kv, v) = false)
        by (apply has_key_false; simpl; congruence).
      assert (E2 : Dict.has_key k' kv = false)
        by (apply has_key_false; congruence).
      rewrite E1, E2. reflexivity.
    + destruct (Dict.has_key k' kv); [reflexivity | exact IH].
Qed.

Lemma get_None_keys k d : Dict.get k d = None <-> ~ In k (Dict.keys d).
Proof.
  unfold Dict.get, Dict.keys. induction d as [|kv d IH]; simpl.
  - tauto.
  - destruct (Dict.has_key k kv) eqn:E.
    + apply has_key_true in E. split; [discriminate | tauto].
    + apply has_key_false in E. rewrite IH. tauto.
Qed.

(** Assignment keeps the keys in place and adds a new key at the end. *)
Lemma keys_set k v d :
  Dict.keys (Dict.set k v d) =
  if existsb (String.eqb k) (Dict.keys d)
  then Dict.keys d
  else (Dict.keys d ++ [k])%list.
Proof.
  unfold Dict.keys. induction d as [|kv d IH]; simpl; [reflexivity|].
  unfold Dict.has_key at 1. rewrite (String.eqb_sym k (fst kv)).
  destruct (String.eqb (fst kv) k) eqn:E; simpl; [reflexivity|].
  rewrite IH. destruct (existsb (String.eqb k) (map fst d)); reflexivity.
Qed.

Lemma existsb_eqb_In k (l : list string) :
  existsb (String.eqb k) l = true <-> In k l.
Proof.
  rewrite existsb_exists. split.
  - intros (x & Hx & E). apply String.eqb_eq in E. congruence.
  - intros H. exists k. split; [assumption | apply String.eqb_refl].
Qed.

Lemma keys_set_unique k v d :
  List.NoDup (Dict.keys d) -> List.NoDup (Dict.keys (Dict.set k v d)).
Proof.
  intros Hn. rewrite keys_set.
  destruct (existsb (String.eqb k) (Dict.keys d)) eqn:E; [assumption|].
  apply NoDup_snoc; [assumption|].
  intros Hin. apply existsb_eqb_In in Hin. congruence.
Qed.

Lemma keys_update_unique d other :
  List.NoDup (Dict.keys d) -> List.NoDup (Dict.keys (Dict.update d other)).
Proof.
  unfold Dict.update. revert d.
  induction other as [|kv other IH]; intros d Hn; simpl; [assumption|].
  apply IH. apply keys_set_unique. assumption.
Qed.

Lemma get_cons k (kv : string * V) d :
  Dict.get k (kv :: d) =
  if Dict.has_key k kv then Some (snd kv) else Dict.get k d.
Proof.
  unfold Dict.get. simpl. destruct (Dict.has_key k kv); reflexivity.
Qed.

(** Lookup in an updated dictionary: the entry of [other] when it has the
    key, else the entry of [d]. *)
Lemma get_update k d other :
  List.NoDup (Dict.keys other) ->
  Dict.get k (Dict.update d other) =
  match Dict.get k other with
  | Some v => Some v
  | None => Dict.get k d
  end.
Proof.
  unfold Dict.update. revert d.
  induction other as [|kv other IH]; intros d Hn; simpl; [reflexivity|].
  inversion Hn as [|? ? Hnotin Hn']; subst.
  rewrite IH by assumption. rewrite get_cons.
  destruct (Dict.has_key k kv) eqn:E.
  - apply has_key_true in E. subst k.
    apply get_None_keys in Hnotin. rewrite Hnotin. apply get_set_eq.
  - apply has_key_false in E.
    destruct (Dict.get k other); [reflexivity|].
    apply get_set_ne. assumption.
Qed.

End DictFacts.

(** ** Bulk reads of the store *)

Section QueryFacts.

Import Storage StorageQueries.

Variable str_to_float : string -> option Q.
Variable str_to_int : string -> option Z.

Local Abbreviation save_roi_inputs :=
  (save_roi_inputs str_to_float str_to_int).
Local Abbreviation reachable := (reachable str_to_float str_to_int).

Lemma insert_by_updated_perm r rows :
  Permutation (insert_by_updated r rows) (r :: rows).
Proof.
  induction rows as [|r' rows IH]; simpl; [reflexivity|].
  destruct (updated_at r' <=? updated_at r)%Z; [reflexivity|].
  rewrite IH. apply perm_swap.
Qed.

Lemma order_by_updated_desc_perm rows :
  Permutation (order_by_updated_desc rows) rows.
Proof.
  induction rows as [|r rows IH]; simpl; [reflexivity|].
  rewrite insert_by_updated_perm. constructor. exact IH.
Qed.

Lemma ordered_titles_unique rows :
  List.NoDup (titles rows) ->
  List.NoDup (titles (order_by_updated_desc rows)).
Proof.
  intros Hn. eapply Permutation_NoDup; [|exact Hn].
  unfold titles. apply Permutation_map. symmetry.
  apply order_by_updated_desc_perm.
Qed.

(** With unique titles, selection finds the one row of the title. *)
Lemma select_one_spec title rows r :
  List.NoDup (titles rows) ->
  select_one title rows = Some r <-> In r rows /\ use_case_title r = title.
Proof.
  unfold select_one. induction rows as [|r0 rows IH]; simpl; intros Hn.
  - split; [discriminate | tauto].
  - inversion Hn as [|? ? Hnotin Hn']; subst.
    destruct (has_title title r0) eqn:E.
    + apply has_title_true in E. split.
      * intros [= <-]. tauto.
      * intros [[->|Hin] Ht]; [reflexivity|]. exfalso. apply Hnotin.
        unfold titles. apply in_map_iff. exists r. split; [congruence|exact Hin].
    + apply has_title_false in E. rewrite (IH Hn'). split.
      * tauto.
      * intros [[->|Hin] Ht]; [contradiction | tauto].
Qed.

Lemma select_one_perm title rows rows' :
  Permutation rows rows' -> List.NoDup (titles rows) ->
  select_one title rows' = select_one title rows.
Proof.
  intros Hp Hn.
  assert (Hn' : List.NoDup (titles rows')).
  { eapply Permutation_NoDup; [|exact Hn]. unfold titles.
    apply Permutation_map. exact Hp. }
  destruct (select_one title rows) as [r|] eqn:E.
  - apply (select_one_spec _ _ _ Hn) in E as [Hin Ht].
    apply (select_one_spec _ _ _ Hn'). split; [|exact Ht].
    eapply Permutation_in; eassumption.
  - destruct (select_one title rows') as [r'|] eqn:E'; [|reflexivity].
    apply (select_one_spec _ _ _ Hn') in E' as [Hin Ht].
    assert (H : select_one title rows = Some r').
    { apply (select_one_spec _ _ _ Hn). split; [|exact Ht].
      eapply Permutation_in; [symmetry|]; eassumption. }
    congruence.
Qed.

Lemma select_one_absent title rows :
  ~ In title (titles rows) -> select_one title rows = None.
Proof.
  unfold select_one. induction rows as [|r rows IH]; simpl; [reflexivity|].
  intros Hn. destruct (has_title title r) eqn:E.
  - apply has_title_true in E. tauto.
  - apply IH. tauto.
Qed.

(** The loop of [load_all_roi_inputs] from any dictionary built so far. *)
Lemma get_collected title results (acc : Dict.t (gmap string value)) :
  List.NoDup (titles results) ->
  Dict.get title
    (fold_left
       (fun roi_inputs result =>
          Dict.set (use_case_title result) (row_dict result) roi_inputs)
       results acc) =
  match select_one title results with
  | Some r => Some (row_dict r)
  | None => Dict.get title acc
  end.
Proof.
  revert acc. induction results as [|r results IH]; intros acc Hn; simpl;
    [reflexivity|].
  inversion Hn as [|? ? Hnotin Hn']; subst. rewrite IH by assumption.
  unfold select_one. simpl. fold (select_one title results).
  destruct (has_title title r) eqn:E.
  - apply has_title_true in E. subst title.
    rewrite select_one_absent by assumption. apply get_set_eq.
  - apply has_title_false in E.
    destruct (select_one title results); [reflexivity|].
    apply get_set_ne. assumption.
Qed.

Lemma keys_collected results (acc : Dict.t (gmap string value)) :
  List.NoDup (Dict.keys acc ++ titles results) ->
  Dict.keys
    (fold_left
       (fun roi_inputs result =>
          Dict.set (use_case_title result) (row_dict result) roi_inputs)
       results acc) = (Dict.keys acc ++ titles results)%list.
Proof.
  revert acc. induction results as [|r results IH]; intros acc Hn; simpl.
  - rewrite app_nil_r. reflexivity.
  - assert (Hnew : existsb (String.eqb (use_case_title r)) (Dict.keys acc)
                   = false).
    { apply not_true_iff_false. intros H. apply existsb_eqb_In in H.
      apply NoDup_remove_2 in Hn. apply Hn. apply in_or_app. left. exact H. }
    assert (Hk : Dict.keys (Dict.set (use_case_title r) (row_dict r) acc)
                 = (Dict.keys acc ++ [use_case_title r])%list)
      by (rewrite keys_set, Hnew; reflexivity).
    rewrite IH; rewrite Hk, <- app_assoc; [reflexivity|exact Hn].
Qed.

Lemma insert_by_updated_sorted r rows :
  StronglySorted newer_first rows ->
  StronglySorted newer_first (insert_by_updated r rows).
Proof.
  induction 1 as [|r' rows Hs IH Hall]; simpl.
  - constructor; constructor.
  - destruct (updated_at r' <=? updated_at r)%Z eqn:E.
    + apply Z.leb_le in E. constructor; [constructor; assumption|].
      constructor; [exact E|].
      rewrite List.Forall_forall in *. unfold newer_first in *.
      intros x Hx. specialize (Hall x Hx). lia.
    + apply Z.leb_gt in E. constructor; [exact IH|].
      rewrite List.Forall_forall in *. unfold newer_first in *.
      intros x Hx.
      apply (Permutation_in _ (insert_by_updated_perm r rows)) in Hx.
      destruct Hx as [<-|Hx]; [lia | apply Hall; exact Hx].
Qed.

Lemma order_by_updated_desc_sorted rows :
  StronglySorted newer_first (order_by_updated_desc rows).
Proof.
  induction rows as [|r rows IH]; simpl; [constructor|].
  apply insert_by_updated_sorted. exact IH.
Qed.

(** A row newer than all others comes first. *)
Lemma newest_first r rows :
  In r rows ->
  (forall r', In r' rows -> r' = r \/ (updated_at r' < updated_at r)%Z) ->
  hd_error (order_by_updated_desc rows) = Some r.
Proof.
  induction rows as [|a rows IH]; simpl; [tauto|]. intros Hin Hall.
  assert (Hins : forall l,
            (forall h, hd_error l = Some h ->
               (updated_at h <= updated_at r)%Z) ->
            hd_error (insert_by_updated r l) = Some r).
  { intros [|h l] Hh; simpl; [reflexivity|].
    assert (E : (updated_at h <=? updated_at r)%Z = true)
      by (apply Z.leb_le; apply Hh; reflexivity).
    rewrite E. reflexivity. }
  destruct (Hall a (or_introl eq_refl)) as [->|Hlt].
  - apply Hins. intros h Hh.
    assert (Hin' : In h rows).
    { eapply Permutation_in; [apply order_by_updated_desc_perm|].
      destruct (order_by_updated_desc rows); [discriminate|].
      injection Hh as ->. left. reflexivity. }
    destruct (Hall h (or_intror Hin')) as [->|]; lia.
  - destruct Hin as [->|Hin]; [lia|].
    assert (Hhd := IH Hin (fun r' H => Hall r' (or_intror H))).
    destruct (order_by_updated_desc rows) as [|h l]; [discriminate|].
    injection Hhd as ->. simpl.
    assert (E : (updated_at r <=? updated_at a)%Z = false)
      by (apply Z.leb_gt; exact Hlt).
    rewrite E. reflexivity.
Qed.

Lemma upsert_in new rows r :
  In r (upsert new rows) -> r = new \/ In r rows.
Proof.
  unfold upsert. destruct (existsb (has_title (use_case_title new)) rows).
  - rewrite in_map_iff. intros (r0 & E & Hin).
    destruct (has_title (use_case_title new) r0); [left | right]; congruence.
  - rewrite in_app_iff. simpl. intros [H|[<-|[]]]; auto.
Qed.

Lemma upsert_has_new new rows : In new (upsert new rows).
Proof.
  pose proof (select_one_upsert new rows) as H. unfold select_one in H.
  apply find_some in H. tauto.
Qed.

Lemma load_all_keys self :
  List.NoDup (titles (roi_inputs self)) ->
  Dict.keys (load_all_roi_inputs self) = get_saved_use_cases self.
Proof.
  intros Hn. pose proof (ordered_titles_unique _ Hn) as Hn'.
  unfold load_all_roi_inputs, get_saved_use_cases.
  destruct (connection self) as [[|]|]; simpl; try reflexivity.
  unfold collect. rewrite keys_collected; [reflexivity | exact Hn'].
Qed.

(** X5.  On every reachable store the bulk load and the point lookup agree:
    the entry [load_all_roi_inputs] holds under a title is the record
    [load_roi_inputs] returns for it, and a title is absent from one exactly
    when the other returns [None]. *)
Theorem X5_bulk_load_agrees_with_load self :
  reachable self ->
  forall title,
    Dict.get title (load_all_roi_inputs self) = load_roi_inputs self title.
Proof.
  intros Hr title. pose proof (reachable_unique _ _ self Hr) as Hn.
  unfold load_all_roi_inputs, load_roi_inputs.
  destruct (connection self) as [[|]|]; simpl; try reflexivity.
  unfold collect. rewrite get_collected by (apply ordered_titles_unique; exact Hn).
  rewrite (select_one_perm title (roi_inputs self));
    [|symmetry; apply order_by_updated_desc_perm | exact Hn].
  destruct (select_one title (roi_inputs self)); reflexivity.
Qed.

(** X6.  On every reachable store [get_saved_use_cases] lists each saved
    title once, and lists the keys of [load_all_roi_inputs], in the same
    order when no two rows carry the same timestamp; on an open connection
    these are the titles of the rows of the table, arranged by
    non-increasing [updated_at]. *)
Theorem X6_saved_use_cases_listed_once_newest_first self :
  reachable self ->
  List.NoDup (get_saved_use_cases self) /\
  Permutation (Dict.keys (load_all_roi_inputs self))
    (get_saved_use_cases self) /\
  (List.NoDup (map updated_at (roi_inputs self)) ->
   Dict.keys (load_all_roi_inputs self) = get_saved_use_cases self) /\
  (connection self = Some Open ->
   exists rows,
     get_saved_use_cases self = titles rows /\
     Permutation rows (roi_inputs self) /\
     StronglySorted newer_first rows).
Proof.
  intros Hr. pose proof (reachable_unique _ _ self Hr) as Hn.
  pose proof (ordered_titles_unique _ Hn) as Hn'.
  pose proof (load_all_keys self Hn) as Hk.
  split; [|split; [rewrite Hk; reflexivity | split; [intros _; exact Hk|]]];
    unfold get_saved_use_cases;
    destruct (connection self) as [[|]|]; simpl;
    try constructor; try discriminate; try exact Hn'.
  intros _. exists (order_by_updated_desc (roi_inputs self)).
  repeat split.
  - apply order_by_updated_desc_perm.
  - apply order_by_updated_desc_sorted.
Qed.

(** X7.  A save that succeeds at a time later than every timestamp in the
    table puts its title first in [get_saved_use_cases] and first among the
    keys of [load_all_roi_inputs]. *)
Theorem X7_latest_save_listed_first self now title inputs unit_name self' :
  reachable self ->
  save_roi_inputs self now title inputs unit_name = (true, self') ->
  (forall r, In r (roi_inputs self) -> (updated_at r < now)%Z) ->
  hd_error (get_saved_use_cases self') = Some title /\
  hd_error (Dict.keys (load_all_roi_inputs self')) = Some title.
Proof.
  intros Hr Hs Hold.
  assert (Hr' : reachable self').
  { eapply reachable_step; [exact Hr|].
    replace self' with
      (snd (save_roi_inputs self now title inputs unit_name))
      by (rewrite Hs; reflexivity).
    apply step_save. }
  rewrite (load_all_keys self' (reachable_unique _ _ self' Hr')).
  assert (H : hd_error (get_saved_use_cases self') = Some title);
    [|split; exact H].
  apply save_true in Hs as (_ & row & Hp & ->).
  apply save_parameters_inv in Hp as Hrow.
  destruct Hrow as (Ht & _ & _ & _ & _ & _ & _ & _ & _ & _ & _ & Hnow).
  unfold get_saved_use_cases. simpl.
  rewrite <- Ht.
  assert (Hhd : hd_error (order_by_updated_desc (upsert row (roi_inputs self)))
                = Some row).
  { apply newest_first; [apply upsert_has_new|].
    intros r' Hin. apply upsert_in in Hin as [->|Hin]; [left; reflexivity|].
    right. rewrite Hnow. apply Hold. exact Hin. }
  destruct (order_by_updated_desc (upsert row (roi_inputs self)));
    [discriminate|].
  injection Hhd as ->. reflexivity.
Qed.

End QueryFacts.

Section QueryExamples.

Import Storage StorageQueries.

Lemma X5_bulk_load_agrees_with_load_witness :
  Dict.get "A" (load_all_roi_inputs one_saved) = load_roi_inputs one_saved "A".
Proof.
  apply (X5_bulk_load_agrees_with_load no_number no_number one_saved
           one_saved_reachable).
Defined.

Lemma two_saved_reachable : reachable no_number no_number two_saved.
Proof.
  eapply reachable_step; [apply one_saved_reachable|]. apply step_save.
Qed.

Lemma X6_saved_use_cases_listed_once_newest_first_witness :
  get_saved_use_cases two_saved = ["B"; "A"] /\
  List.NoDup (get_saved_use_cases two_saved) /\
  Permutation (Dict.keys (load_all_roi_inputs two_saved))
    (get_saved_use_cases two_saved) /\
  (List.NoDup (map updated_at (roi_inputs two_saved)) ->
   Dict.keys (load_all_roi_inputs two_saved)
   = get_saved_use_cases two_saved) /\
  (connection two_saved = Some Open ->
   exists rows,
     get_saved_use_cases two_saved = titles rows /\
     Permutation rows (roi_inputs two_saved) /\
     StronglySorted newer_first rows).
Proof.
  split; [reflexivity|].
  apply (X6_saved_use_cases_listed_once_newest_first no_number no_number
           two_saved two_saved_reachable).
Defined.

Lemma X7_latest_save_listed_first_witness :
  hd_error (get_saved_use_cases
              (snd (save_roi_inputs no_number no_number one_saved 7 "B"
                      hours_only None))) = Some "B" /\
  hd_error (Dict.keys (load_all_roi_inputs
              (snd (save_roi_inputs no_number no_number one_saved 7 "B"
                      hours_only None)))) = Some "B".
Proof.
  apply (X7_latest_save_listed_first no_number no_number one_saved 7 "B"
           hours_only None _ one_saved_reachable eq_refl).
  intros r [<-|[]]. reflexivity.
Defined.

End QueryExamples.

(** ** More on the store operations *)

Section StoreExtras.

Import Storage StorageQueries.

Variable str_to_float : string -> option Q.
Variable str_to_int : string -> option Z.

Local Abbreviation save_parameters :=
  (save_parameters str_to_float str_to_int).
Local Abbreviation save_roi_inputs :=
  (save_roi_inputs str_to_float str_to_int).

Lemma save_false self now title inputs unit_name :
  fst (save_roi_inputs self now title inputs unit_name) = false ->
  snd (save_roi_inputs self now title inputs unit_name) = self.
Proof.
  unfold Storage.save_roi_inputs.
  destruct (connection self) as [[|]|]; simpl; try reflexivity.
  destruct (save_parameters now title inputs unit_name); simpl;
    [discriminate | reflexivity].
Qed.

(** X8.  After [close] the table is what it was and every operation gives
    its failure value without touching it: save and delete return false,
    load returns [None], the bulk reads return nothing; closing again
    changes nothing. *)
Theorem X8_closed_store_refuses self now title inputs unit_name :
  roi_inputs (close self) = roi_inputs self /\
  close (close self) = close self /\
  save_roi_inputs (close self) now title inputs unit_name
    = (false, close self) /\
  load_roi_inputs (close self) title = None /\
  delete_roi_inputs (close self) title = (false, close self) /\
  load_all_roi_inputs (close self) = [] /\
  get_saved_use_cases (close self) = [].
Proof.
  destruct self as [[c|] rows]; repeat split; reflexivity.
Qed.

Lemma save_refuses_none self now title inputs unit_name k :
  In k (float_fields ++ score_fields) ->
  inputs !! k = Some VNone ->
  save_roi_inputs self now title inputs unit_name = (false, self).
Proof.
  intros Hk Hnone.
  destruct (save_roi_inputs self now title inputs unit_name) as [b s'] eqn:E.
  destruct b.
  - exfalso. apply save_true in E as (_ & row & Hp & _).
    apply save_parameters_inv in Hp
      as (_ & _ & H1 & H2 & H3 & H4 & H5 & H6 & H7 & H8 & H9 & _).
    unfold dict_get_default in *. simpl in Hk.
    destruct Hk as [<-|[<-|[<-|[<-|[<-|[<-|[<-|[<-|[<-|[]]]]]]]]]];
      rewrite Hnone in *; discriminate.
  - pose proof (save_false self now title inputs unit_name) as H.
    rewrite E in H. simpl in H. rewrite H by reflexivity. reflexivity.
Qed.

(** X9.  A save that returns false leaves the store exactly as it was; and a
    save returns false whenever one of the nine fields is present with the
    value [None]. *)
Theorem X9_failed_save_changes_nothing self now title inputs unit_name :
  (fst (save_roi_inputs self now title inputs unit_name) = false ->
   snd (save_roi_inputs self now title inputs unit_name) = self) /\
  (forall k, In k (float_fields ++ score_fields) ->
     inputs !! k = Some VNone ->
     save_roi_inputs self now title inputs unit_name = (false, self)).
Proof.
  split; [apply save_false|].
  intros k. apply save_refuses_none.
Qed.

Lemma filter_other_titles title rows (row : Row) :
  ~ In title (titles rows) -> use_case_title row = title ->
  List.filter (fun r => negb (has_title title r)) (rows ++ [row]) = rows /\
  List.filter (has_title title) (rows ++ [row]) = [row].
Proof.
  intros Hn Ht.
  assert (Hrow : has_title title row = true) by (apply has_title_true; exact Ht).
  rewrite !List.filter_app. simpl. rewrite Hrow. simpl.
  rewrite (filter_title_absent _ _ Hn). split; [|reflexivity].
  rewrite app_nil_r. clear Hrow Ht.
  induction rows as [|r rows IH]; simpl in *; [reflexivity|].
  destruct (has_title title r) eqn:E.
  - apply has_title_true in E. tauto.
  - simpl. f_equal. apply IH. tauto.
Qed.

(** X10.  Saving a title the table does not hold and then deleting it gives
    back the store as it was, and the delete returns true. *)
Theorem X10_save_then_delete_restores self now title inputs unit_name self1 :
  ~ In title (titles (roi_inputs self)) ->
  save_roi_inputs self now title inputs unit_name = (true, self1) ->
  delete_roi_inputs self1 title = (true, self).
Proof.
  intros Hn Hs. apply save_true in Hs as (Hc & row & Hp & ->).
  apply save_parameters_inv in Hp as (Ht & _).
  unfold delete_roi_inputs, delete_where, upsert. simpl.
  assert (E : existsb (has_title (use_case_title row)) (roi_inputs self)
              = false).
  { apply not_true_iff_false. intros H. apply existsb_has_title in H.
    rewrite Ht in H. contradiction. }
  rewrite E.
  destruct (filter_other_titles title (roi_inputs self) row Hn Ht)
    as [-> ->].
  simpl. destruct self as [c rows]. simpl in *. subst c. reflexivity.
Qed.

Lemma select_one_after_delete title other rows :
  other <> title ->
  select_one other (List.filter (fun r => negb (has_title title r)) rows)
  = select_one other rows.
Proof.
  intros Hne. unfold select_one.
  induction rows as [|r rows IH]; simpl; [reflexivity|].
  destruct (has_title title r) eqn:E; simpl.
  - apply has_title_true in E.
    assert (Ho : has_title other r = false)
      by (apply has_title_false; congruence).
    rewrite Ho. exact IH.
  - destruct (has_title other r); [reflexivity | exact IH].
Qed.

Lemma filter_deleted_twice title rows :
  List.filter (fun r => negb (has_title title r))
    (List.filter (fun r => negb (has_title title r)) rows)
  = List.filter (fun r => negb (has_title title r)) rows /\
  List.filter (has_title title)
    (List.filter (fun r => negb (has_title title r)) rows) = [].
Proof.
  induction rows as [|r rows [IH1 IH2]]; simpl; [split; reflexivity|].
  destruct (has_title title r) eqn:E; simpl; [split; assumption|].
  rewrite E. simpl. rewrite IH1. split; [reflexivity | assumption].
Qed.

(** X11.  A delete leaves the record of every other title as it was, and a
    second delete of the same title returns false and changes nothing. *)
Theorem X11_delete_spares_other_titles self title :
  (forall other, other <> title ->
     load_roi_inputs (snd (delete_roi_inputs self title)) other
     = load_roi_inputs self other) /\
  delete_roi_inputs (snd (delete_roi_inputs self title)) title
  = (false, snd (delete_roi_inputs self title)).
Proof.
  unfold delete_roi_inputs, load_roi_inputs, delete_where.
  destruct self as [[[|]|] rows]; simpl; try (split; reflexivity).
  destruct (filter_deleted_twice title rows) as [E1 E2].
  split.
  - intros other Hne. rewrite select_one_after_delete by assumption.
    reflexivity.
  - rewrite E1, E2. reflexivity.
Qed.

Lemma quot_bounds (n : Z) (d : positive) :
  (0 <= n -> (n ÷ Z.pos d) * Z.pos d <= n < (n ÷ Z.pos d + 1) * Z.pos d)%Z /\
  (n <= 0 -> (n ÷ Z.pos d - 1) * Z.pos d < n <= (n ÷ Z.pos d) * Z.pos d)%Z.
Proof.
  pose proof (Z.quot_rem' n (Z.pos d)) as Hqr.
  split; intros Hn.
  - pose proof (Z.rem_bound_pos n (Z.pos d) Hn ltac:(lia)). nia.
  - pose proof (Z.rem_nonpos n (Z.pos d) ltac:(lia) Hn).
    pose proof (Z.rem_bound_abs n (Z.pos d) ltac:(lia)). nia.
Qed.

(** X12.  A score given as a float is stored as its integer part, truncated
    toward zero: after a successful save, load returns an integer [z] with
    [z <= q < z + 1] for a non-negative [q] and [z - 1 < q <= z] for a
    non-positive one. *)
Theorem X12_float_score_truncated self now title inputs unit_name self'
    (k : string) (q : Q) :
  save_roi_inputs self now title inputs unit_name = (true, self') ->
  In k score_fields ->
  inputs !! k = Some (VFloat q) ->
  exists loaded z,
    load_roi_inputs self' title = Some loaded /\
    loaded !! k = Some (VInt z) /\
    (0 <= q -> inject_Z z <= q /\ q < inject_Z z + 1)%Q /\
    (q <= 0 -> inject_Z z - 1 < q /\ q <= inject_Z z)%Q.
Proof.
  intros Hs Hk Hq. apply save_true in Hs as (Hc & row & Hp & ->).
  apply save_parameters_inv in Hp
    as (Ht & _ & _ & _ & _ & _ & H5 & H6 & _ & _ & H9 & _).
  exists (row_dict row), (Z.quot (Qnum q) (Z.pos (Qden q))).
  split.
  { rewrite load_open by reflexivity. simpl. rewrite <- Ht.
    rewrite select_one_upsert. reflexivity. }
  split.
  { unfold dict_get_default in *. simpl in Hk.
    destruct Hk as [<-|[<-|[<-|[]]]]; rewrite Hq in *;
      unfold py_int in *;
      match goal with
      | H : Ok (Z.quot _ _) = Ok _ |- _ => injection H as E; rewrite E
      end;
      reflexivity. }
  destruct q as [n d]. simpl Qnum. simpl Qden.
  destruct (quot_bounds n d) as [Hpos Hneg].
  unfold Qle, Qlt. simpl. split; intros H.
  - specialize (Hpos ltac:(lia)). lia.
  - specialize (Hneg ltac:(lia)). lia.
Qed.

End StoreExtras.

Section StoreExtrasExamples.

Import Storage StorageQueries.

Lemma X9_failed_save_changes_nothing_witness :
  In "labor_impact_hours" (float_fields ++ score_fields) /\
  blank_hours !! "labor_impact_hours" = Some VNone /\
  save_roi_inputs no_number no_number one_saved 7 "B" blank_hours None
  = (false, one_saved).
Proof.
  assert (Hk : In "labor_impact_hours" (float_fields ++ score_fields))
    by (left; reflexivity).
  assert (Hv : blank_hours !! "labor_impact_hours" = Some VNone)
    by reflexivity.
  destruct (X9_failed_save_changes_nothing no_number no_number one_saved 7
              "B" blank_hours None) as [_ H].
  exact (conj Hk (conj Hv (H _ Hk Hv))).
Defined.

Lemma X10_save_then_delete_restores_witness :
  ~ In "B" (titles (roi_inputs one_saved)) /\
  delete_roi_inputs
    (snd (save_roi_inputs no_number no_number one_saved 7 "B" hours_only
            None)) "B" = (true, one_saved).
Proof.
  assert (Hn : ~ In "B" (titles (roi_inputs one_saved)))
    by (intros [E|[]]; discriminate E).
  split; [exact Hn|].
  apply (X10_save_then_delete_restores no_number no_number one_saved 7 "B"
           hours_only None _ Hn eq_refl).
Defined.

Lemma X12_float_score_truncated_witness :
  exists loaded z,
    load_roi_inputs
      (snd (save_roi_inputs no_number no_number one_saved 7 "B"
              fractional_score None)) "B" = Some loaded /\
    loaded !! "risk_mitigation_score" = Some (VInt z) /\
    (0 <= 37 # 10 -> inject_Z z <= 37 # 10 /\ 37 # 10 < inject_Z z + 1)%Q /\
    (37 # 10 <= 0 -> inject_Z z - 1 < 37 # 10 /\ 37 # 10 <= inject_Z z)%Q.
Proof.
  apply (X12_float_score_truncated no_number no_number one_saved 7 "B"
           fractional_score None _ "risk_mitigation_score" (37 # 10) eq_refl).
  - right. left. reflexivity.
  - reflexivity.
Defined.

End StoreExtrasExamples.

(** ** More on the portfolio summary *)

Section PortfolioFacts.

Import Aggregator Portfolio.

Local Open Scope Q_scope.


Ltac run lem :=
  eapply returns_bind;
  [ eapply lem; first [eassumption | apply is_num_int | apply is_num_float]
  | cbv beta; intros ? ? ].









(** X13.  In the merged portfolio a title edited in the session carries the
    session's record, whatever the store holds for it; any other title
    carries the record of the bulk load. *)
Theorem X13_session_record_wins roi_storage session title :
  List.NoDup (Dict.keys session) ->
  Dict.get title (all_roi_data roi_storage session) =
  match Dict.get title session with
  | Some inputs => Some inputs
  | None =>
      match roi_storage with
      | Some storage =>
          Dict.get title (StorageQueries.load_all_roi_inputs storage)
      | None => None
      end
  end.
Proof.
  intros Hn. unfold all_roi_data. rewrite get_update by exact Hn.
  destruct (Dict.get title session); [reflexivity|].
  destruct roi_storage; reflexivity.
Qed.

Lemma X13_session_record_wins_witness :
  List.NoDup (Dict.keys edited_session) /\
  Dict.get "A" (all_roi_data (Some one_saved) edited_session)
  = Some hours_only.
Proof.
  assert (Hn : List.NoDup (Dict.keys edited_session)).
  { constructor; [intros []|constructor]. }
  split; [exact Hn|].
  apply (X13_session_record_wins (Some one_saved) edited_session "A" Hn).
Defined.








End PortfolioFacts.

(** ** The extracted record and the estimate helpers *)

Section ExtractionFacts.

Import Extraction.

Local Open Scope Q_scope.

(** The nine fields of an extracted record, as read through [scalars]. *)
Lemma extracted_fields use_case_data :
  let record := scalars (extract_roi_inputs_from_api use_case_data) in
  record !! "labor_impact_hours" = Some VNone /\
  record !! "labor_cost_hourly" = Some (VFloat 100) /\
  record !! "cost_avoidance_annual" = Some VNone /\
  record !! "revenue_impact_annual" = Some VNone /\
  record !! "risk_mitigation_score" = Some VNone /\
  record !! "customer_reach_score" = Some VNone /\
  record !! "time_to_value_hours" = Some VNone /\
  record !! "implementation_cost_hourly" = Some (VFloat 100) /\
  record !! "confidence_level" = Some VNone.
Proof.
  unfold scalars. cbv zeta. rewrite !lookup_omap.
  repeat split; reflexivity.
Qed.

Lemma extracted_reads_as_rate_only use_case_data :
  calculate_roi_with_inputs
    (scalars (extract_roi_inputs_from_api use_case_data))
  = calculate_roi_with_inputs (<["labor_cost_hourly" := VFloat 100]> ∅).
Proof.
  destruct (extracted_fields use_case_data)
    as (H1 & H2 & H3 & H4 & H5 & H6 & H7 & _ & H9).
  apply calculate_ext. intros k Hk d. unfold dict_get. simpl in Hk.
  destruct Hk as [<-|[<-|[<-|[<-|[<-|[<-|[<-|[<-|[]]]]]]]]];
    first [rewrite H1 | rewrite H2 | rewrite H3 | rewrite H4 | rewrite H5
          | rewrite H6 | rewrite H7 | rewrite H9]; reflexivity.
Qed.

(** X17.  Whatever the use-case data, the calculator on a freshly extracted
    record returns: monthly and annual benefit 0, implementation cost 0, an
    infinite payback period, an annual ROI of 0 and a strategic value
    of 0. *)
Theorem X17_fresh_record_has_no_return use_case_data :
  returns
    (calculate_roi_with_inputs
       (scalars (extract_roi_inputs_from_api use_case_data)))
    (fun r =>
       is_num (monthly_benefit r) 0 /\
       is_num (annual_benefit r) 0 /\
       is_num (implementation_cost r) 0 /\
       payback_period_months r = Infinite /\
       annual_roi_percentage r = VInt 0 /\
       is_num (strategic_value r) 0).
Proof.
  rewrite extracted_reads_as_rate_only. vm_compute. repeat split.
Qed.

Variable str_to_float : string -> option Q.
Variable str_to_int : string -> option Z.

(** X18.  A freshly extracted record has no data for the summary, whose loop
    passes over it, and cannot be saved as it is: [save_roi_inputs] returns
    false and leaves the store unchanged, its hours being [None]. *)
Theorem X18_fresh_record_skipped_and_refused use_case_data title acc self now
    unit_name :
  let record := scalars (extract_roi_inputs_from_api use_case_data) in
  Aggregator.has_data record = false /\
  Aggregator.summarize_case title record acc = Ok acc /\
  Storage.save_roi_inputs str_to_float str_to_int self now title record
    unit_name = (false, self).
Proof.
  cbv zeta.
  destruct (extracted_fields use_case_data) as (H1 & _ & H3 & H4 & _).
  assert (Hd : Aggregator.has_data
                 (scalars (extract_roi_inputs_from_api use_case_data))
               = false).
  { unfold Aggregator.has_data, Aggregator.key_fields, dict_get.
    cbn [existsb]. rewrite H1, H3, H4. reflexivity. }
  split; [exact Hd|]. split.
  - unfold Aggregator.summarize_case. rewrite Hd. reflexivity.
  - apply (save_refuses_none _ _ _ _ _ _ _ "labor_impact_hours");
      [left; reflexivity | exact H1].
Qed.

End ExtractionFacts.

Section EstimateFacts.

Import Extraction Estimates.

Local Open Scope Q_scope.

Variable lowered : obj -> string.
Variable text_length : obj -> nat.
Variable first_number : string -> option N.

(** X19.  The three score helpers stay on the 1-5 scale whatever the use
    case: the risk score and the customer reach score are 2, 3, 4 or 5, and
    the confidence score lies between 1 and 5. *)
Theorem X19_score_helpers_on_scale (use_case_data : gmap string obj) :
  In (_calculate_risk_score lowered use_case_data) [2; 3; 4; 5] /\
  In (_calculate_customer_reach_score lowered use_case_data) [2; 3; 4; 5] /\
  1 <= _calculate_confidence_score text_length use_case_data <= 5.
Proof.
  split; [|split].
  - unfold _calculate_risk_score.
    repeat match goal with
    | |- context [if ?b then _ else _] => destruct b
    end; simpl; tauto.
  - unfold _calculate_customer_reach_score.
    destruct (existsb _ _); [simpl; tauto|].
    destruct (get_default _ _ _); simpl; try tauto.
    repeat match goal with
    | |- context [if ?b then _ else _] => destruct b
    end; simpl; tauto.
  - unfold _calculate_confidence_score.
    destruct (get_default use_case_data "current_process" _);
      destruct (get_default use_case_data "systems_involved" _);
      repeat match goal with
      | |- context [if (?a <? ?b)%nat then _ else _] =>
          destruct (a <? b)%nat
      end; vm_compute; split; discriminate.
Qed.

(** X20.  The implementation estimate is never below the 40-hour baseline
    and never above the 1000-hour cap. *)
Theorem X20_time_to_value_between_baseline_and_cap
    (complexity_factors systems : obj) :
  (40 <= _estimate_time_to_value complexity_factors systems <= 1000)%Z.
Proof.
  unfold _estimate_time_to_value.
  destruct complexity_factors, systems; lia.
Qed.


(** X22.  [_estimate_cost_avoidance] never returns: every path reads
    [self.cost_per_system], which the class does not set.
    [_estimate_revenue_generated] returns only the default estimate 0; its
    other paths read [self.revenue_per_customer_system], as absent. *)
Theorem X22_estimates_read_unset_attributes (systems roi_data : obj) :
  _estimate_cost_avoidance lowered systems roi_data = AttributeError /\
  (_estimate_revenue_generated lowered roi_data systems = AttributeError \/
   _estimate_revenue_generated lowered roi_data systems
   = Returned (VInt 0)).
Proof.
  unfold _estimate_cost_avoidance, _estimate_revenue_generated. split.
  - repeat match goal with
    | |- context [if ?b then _ else _] => destruct b
    end; reflexivity.
  - destruct (related_benefit lowered _ roi_data); [left; reflexivity|].
    destruct systems; try (right; reflexivity).
    destruct (mentions lowered _ _); [left | right]; reflexivity.
Qed.

End EstimateFacts.
